(** * GeneVector: the embedding model and its trainer (genevector/model.py)

    A shallow embedding of [GeneVectorModel] and [GeneVector].

    Conventions of the model.
    - Tensor entries and Python floats are rationals ([Q]): the arithmetic of
      the program is read over exact numbers.  The one not-a-number the
      control flow can meet, [numpy.mean] of an empty slice, is [None].
    - A tensor is its shape together with its entries; an in-place update
      replaces the entries and keeps the shape.
    - Python exceptions are values of [exn]; a computation that raises keeps
      the effects it had before raising.
    - What PyTorch and the dataset collaborator compute but [model.py] does
      not define (random initialisation, the mean squared error, automatic
      differentiation with the Adadelta update, the text of a float, the
      batches of the dataset) is an interface, [Backend]. *)

From Stdlib Require Import QArith Qabs ZArith Lia DecimalString.
From stdpp Require Import base list strings gmap.

Local Open Scope Z_scope.

(** ** Python values, exceptions and the two monads *)

Inductive pyval :=
  | PyNone
  | PyInt (z : Z)
  | PyFloat (q : Q).

Inductive exn :=
  | ValueError (msg : string)
  | IndexError
  | RuntimeError
  | TypeError
  | ZeroDivisionError
  | AttributeError (name : string).

Inductive result (A : Type) :=
  | Ok (a : A)
  | Raise (e : exn).
Arguments Ok {A} a.
Arguments Raise {A} e.

Definition rbind {A B} (r : result A) (k : A -> result B) : result B :=
  match r with
  | Ok a => k a
  | Raise e => Raise e
  end.

(** A computation over a mutable state [S] that may raise. *)
Definition Py (S A : Type) : Type := S -> S * result A.

Definition ret {S A} (a : A) : Py S A := fun s => (s, Ok a).
Definition raise {S A} (e : exn) : Py S A := fun s => (s, Raise e).
Definition bind {S A B} (c : Py S A) (k : A -> Py S B) : Py S B :=
  fun s => match c s with
           | (s', Ok a) => k a s'
           | (s', Raise e) => (s', Raise e)
           end.
Definition lift {S A} (r : result A) : Py S A := fun s => (s, r).

Declare Scope py_scope.
Delimit Scope py_scope with py.
Notation "x <~ c ;; k" := (bind c (fun x => k))
  (at level 100, c at next level, right associativity) : py_scope.
Notation "c ;;; k" := (bind c (fun _ => k))
  (at level 100, right associativity) : py_scope.

(** Every run of [c] takes a state to one that [R] relates to it, whatever
    the outcome of the run. *)
Definition respects {S A} (R : S -> S -> Prop) (c : Py S A) : Prop :=
  forall s, R s (fst (c s)).

(** [for x in l: body] *)
Fixpoint for_each {S A} (l : list A) (body : A -> Py S unit) : Py S unit :=
  match l with
  | [] => ret tt
  | x :: l' => bind (body x) (fun _ => for_each l' body)
  end.

Fixpoint mapM {A B} (f : A -> result B) (l : list A) : result (list B) :=
  match l with
  | [] => Ok []
  | x :: l' => rbind (f x) (fun y => rbind (mapM f l') (fun ys => Ok (y :: ys)))
  end.

(** ** Numbers *)

Definition Qsum (l : list Q) : Q := fold_right Qplus 0%Q l.

(** The sum of [f k] for [k] in [0, n). *)
Definition Qsum_upto (n : nat) (f : nat -> Q) : Q := Qsum (map f (seq 0 n)).

Definition Qltb (x y : Q) : bool := negb (Qle_bool y x).

(** [l[-n:]] *)
Definition last_n {A} (n : nat) (l : list A) : list A :=
  drop (length l - n)%nat l.

(** [numpy.mean]; [None] is the nan numpy returns on an empty sequence. *)
Definition numpy_mean (l : list Q) : option Q :=
  match l with
  | [] => None
  | _ => Some (Qsum l / inject_Z (Z.of_nat (length l)))%Q
  end.

(** [int(x)]: the identity on an int, truncation towards zero on a float. *)
Definition py_int (v : pyval) : result Z :=
  match v with
  | PyNone => Raise TypeError
  | PyInt z => Ok z
  | PyFloat q => Ok (Z.quot (Qnum q) (Z.pos (Qden q)))
  end.

(** [str(n)] and [%d] on integers. *)
Definition str_int (z : Z) : string := NilZero.string_of_int (Z.to_int z).
Definition str_nat (n : nat) : string := NilZero.string_of_uint (Nat.to_uint n).

(** ** Tensors *)

Record Tensor := {
  shape0 : nat;
  shape1 : nat;
  entry : nat -> nat -> Q
}.

(** Row [r] as a sequence of [shape1] numbers. *)
Definition row (w : Tensor) (r : nat) : list Q :=
  map (entry w r) (seq 0 (shape1 w)).

(** [w.t()] *)
Definition t (w : Tensor) : Tensor :=
  {| shape0 := shape1 w; shape1 := shape0 w; entry := fun a b => entry w b a |}.

(** [torch.matmul(a, b)] on two matrices. *)
Definition matmul (a b : Tensor) : result Tensor :=
  if (shape1 a =? shape0 b)%nat then
    Ok {| shape0 := shape0 a; shape1 := shape1 b;
          entry := fun i j =>
            Qsum_upto (shape1 a) (fun k => entry a i k * entry b k j)%Q |}
  else Raise RuntimeError.

(** [m.fill_diagonal_(v)] *)
Definition fill_diagonal_ (m : Tensor) (v : Q) : Tensor :=
  {| shape0 := shape0 m; shape1 := shape1 m;
     entry := fun i j => if (i =? j)%nat then v else entry m i j |}.

(** [m ** 2] *)
Definition pow2 (m : Tensor) : Tensor :=
  {| shape0 := shape0 m; shape1 := shape1 m;
     entry := fun i j => (entry m i j * entry m i j)%Q |}.

(** [m.sum()] *)
Definition tsum (m : Tensor) : Q :=
  Qsum_upto (shape0 m) (fun i => Qsum_upto (shape1 m) (fun j => entry m i j)).

(** [torch.diag(m)] of a matrix: its main diagonal. *)
Definition diag (m : Tensor) : list Q :=
  map (fun k => entry m k k) (seq 0 (Nat.min (shape0 m) (shape1 m))).

(** Elementwise [op] of two sequences along their first dimension, with the
    broadcasting rule: equal lengths, or one of the two of length one. *)
Definition broadcast {A} (op : A -> A -> A) (a b : list A) : result (list A) :=
  if (length a =? length b)%nat then Ok (zip_with op a b)
  else match a, b with
       | [x], _ => Ok (map (op x) b)
       | _, [y] => Ok (map (fun x => op x y) a)
       | _, _ => Raise RuntimeError
       end.

(** ** GeneVectorModel *)

Record GeneVectorModel := {
  num_embeddings : nat;
  embedding_dim : nat;
  wi : Tensor;
  wj : Tensor;
  param_device : string;   (* where the parameters live, "cpu" at creation *)
  training : bool          (* the nn.Module flag that eval() clears *)
}.

(** [nn.Embedding.__call__]: one row per index; an index outside
    [0, shape0) raises. *)
Definition embedding (w : Tensor) (indices : list Z) : result (list (list Q)) :=
  mapM (fun i => if (0 <=? i) && (i <? Z.of_nat (shape0 w))
                 then Ok (row w (Z.to_nat i))
                 else Raise IndexError) indices.

Definition forward (self : GeneVectorModel) (i_indices j_indices : list Z)
  : result (list Q) :=
  rbind (embedding (wi self) i_indices) (fun w_i =>
  rbind (embedding (wj self) j_indices) (fun w_j =>
  rbind (broadcast (zip_with Qmult) w_i w_j) (fun prod =>
  Ok (map Qsum prod)))).

(** ** Strings, files and the console *)

Definition nl : string := String (Ascii.ascii_of_nat 10) "".
Definition tab : string := String (Ascii.ascii_of_nat 9) "".
Definition esc : string := String (Ascii.ascii_of_nat 27) "".

Module bcolors.
Definition HEADER : string := esc +:+ "[95m".
Definition OKBLUE : string := esc +:+ "[94m".
Definition OKCYAN : string := esc +:+ "[96m".
Definition OKGREEN : string := esc +:+ "[92m".
Definition WARNING : string := esc +:+ "[93m".
Definition FAIL : string := esc +:+ "[91m".
Definition ENDC : string := esc +:+ "[0m".
Definition BOLD : string := esc +:+ "[1m".
Definition UNDERLINE : string := esc +:+ "[4m".
End bcolors.

(** [sep.join(l)] *)
Fixpoint str_join (sep : string) (l : list string) : string :=
  match l with
  | [] => ""
  | [x] => x
  | x :: l' => x +:+ sep +:+ str_join sep l'
  end.

(** [skip] characters of a match are still to be dropped; otherwise a match
    of [old] at the head of [s] is replaced by [new]. *)
Fixpoint replace_from (old new s : string) (skip : nat) : string :=
  match s with
  | EmptyString => EmptyString
  | String c s' =>
      match skip with
      | S k => replace_from old new s' k
      | O => if String.prefix old s
             then new +:+ replace_from old new s' (String.length old - 1)
             else String c (replace_from old new s' 0)
      end
  end.

(** [s.replace(old, new)] for a non-empty [old]: every occurrence, found
    from left to right without overlap, is replaced. *)
Definition str_replace (s old new : string) : string :=
  replace_from old new s 0.

(** A parameter state as [state_dict()] returns it. *)
Definition state_dict := list (string * Tensor).

Inductive File :=
  | TextFile (content : string)
  | BlobFile (sd : state_dict).

(** The files and the console.  A file is known by the path it was opened
    with: the paths of the model are the names of the files of one directory
    that can be written to, so that every [open] succeeds and two paths that
    differ name two files.  Directories that are missing and different paths
    to one file are outside this model. *)
Record World := {
  files : gmap string File;
  stdout : list string      (* one entry per call of print *)
}.

Definition print (line : string) : Py World unit :=
  fun w => ({| files := files w; stdout := stdout w ++ [line] |}, Ok tt).

(** [open(file_name, 'w')]: the file is created or truncated. *)
Definition open_w (file_name : string) : Py World unit :=
  fun w => ({| files := <[file_name := TextFile ""]> (files w);
               stdout := stdout w |}, Ok tt).

Definition text_of (f : option File) : string :=
  match f with
  | Some (TextFile c) => c
  | _ => ""
  end.

(** [f.write(s)] on the file opened at [file_name]. *)
Definition write (file_name s : string) : Py World unit :=
  fun w => ({| files := <[file_name := TextFile (text_of (files w !! file_name) +:+ s)]>
                          (files w);
               stdout := stdout w |}, Ok tt).

(** [embedding[wid]] on the numpy array of a table: a negative index counts
    from the end, an index outside [-shape0, shape0) raises. *)
Definition numpy_getitem (w : Tensor) (wid : Z) : result (list Q) :=
  let n := Z.of_nat (shape0 w) in
  if (0 <=? wid) && (wid <? n) then Ok (row w (Z.to_nat wid))
  else if (- n <=? wid) && (wid <? 0) then Ok (row w (Z.to_nat (wid + n)))
  else Raise IndexError.

(** ** The dataset collaborator *)

Record batch := {
  x_ij : list Q;
  i_idx : list Z;
  j_idx : list Z
}.

Record GeneVectorData := {
  gene2id : list (string * Z);
  id2gene : list (Z * string)    (* a dict, in its iteration order *)
}.

Record GeneVectorDataset := {
  data : GeneVectorData;
  num_pairs : Z;
  _ent : list Q;
  (* the batches of the n-th sweep requested with a batch size *)
  get_batches : pyval -> nat -> list batch;
  sweeps : nat                   (* sweeps requested so far *)
}.

Definition next_sweep (d : GeneVectorDataset) : GeneVectorDataset :=
  {| data := data d; num_pairs := num_pairs d; _ent := _ent d;
     get_batches := get_batches d; sweeps := S (sweeps d) |}.

(** ** The numeric library and the dataset, as far as the trainer calls them *)

Class Backend := {
  (* the running averages Adadelta keeps *)
  acc_state : Type;
  acc_init : acc_state;
  (* nn.Embedding followed by orthogonal_ or uniform_, per table
     (0 is wi, 1 is wj): arguments init_ortho, gain, shape, table, position *)
  init_weight : bool -> Q -> nat -> nat -> nat -> nat -> nat -> Q;
  (* torch.cuda.is_available() *)
  cuda_is_available : bool;
  (* nn.MSELoss() *)
  mse_loss : list Q -> list Q -> result Q;
  (* zero_grad, backward and step: the new running averages and the new
     entries of wi and wj *)
  backward_step : acc_state -> Tensor -> Tensor -> batch -> Q -> Q -> list Q ->
                  acc_state * (nat -> nat -> Q) * (nat -> nat -> Q);
  (* str of a numpy float, str of round(mean, 5) *)
  str_float : Q -> string;
  str_round5 : option Q -> string;
  (* dataset.create_inputs_outputs(c=c) *)
  create_inputs_outputs : Q -> GeneVectorDataset -> GeneVectorDataset
}.

Record Adadelta `{Backend} := {
  steps : nat;           (* calls of step() so far *)
  acc : acc_state
}.

(** The attributes of a trainer; [self.loss], the loss function, has no
    state and is [mse_loss]. *)
Record GeneVector `{Backend} := {
  dataset : GeneVectorDataset;
  init_ortho : bool;
  output_file_name : string;
  emb_size : nat;
  emb_dimension : nat;
  batch_size : pyval;
  use_cuda : bool;
  model : GeneVectorModel;
  device : string;
  optimizer : Adadelta;
  epoch : Z;
  loss_values : list Q;
  mean_loss_values : list (option Q)
}.

Section Program.
Context `{B : Backend}.

(** ** GeneVectorModel, continued *)

(** [GeneVectorModel.__init__] *)
Definition GeneVectorModel_init (num_embeddings embedding_dim : nat) (gain : Q)
    (init_ortho : bool) : GeneVectorModel :=
  {| num_embeddings := num_embeddings;
     embedding_dim := embedding_dim;
     wi := {| shape0 := num_embeddings; shape1 := embedding_dim;
              entry := init_weight init_ortho gain num_embeddings embedding_dim 0 |};
     wj := {| shape0 := num_embeddings; shape1 := embedding_dim;
              entry := init_weight init_ortho gain num_embeddings embedding_dim 1 |};
     param_device := "cpu";
     training := true |}.

(** [nn.Module.cuda()] *)
Definition cuda (m : GeneVectorModel) : GeneVectorModel :=
  {| num_embeddings := num_embeddings m; embedding_dim := embedding_dim m;
     wi := wi m; wj := wj m; param_device := "cuda"; training := training m |}.

(** [nn.Module.eval()] *)
Definition eval (m : GeneVectorModel) : GeneVectorModel :=
  {| num_embeddings := num_embeddings m; embedding_dim := embedding_dim m;
     wi := wi m; wj := wj m; param_device := param_device m; training := false |}.

(** The line [save_embedding] writes for one entry of the mapping. *)
Definition embedding_line (w : string) (r : list Q) : string :=
  w +:+ " " +:+ str_join " " (map str_float r) +:+ nl.

Definition header_line (n d : nat) : string :=
  str_nat n +:+ " " +:+ str_nat d +:+ nl.

Definition save_embedding (self : GeneVectorModel) (id2word : list (Z * string))
    (file_name : string) (layer : Z) : Py World unit :=
  let embedding := if layer =? 0 then wi self else wj self in
  (open_w file_name ;;;
   write file_name (header_line (length id2word) (embedding_dim self)) ;;;
   for_each id2word (fun '(wid, w) =>
     r <~ lift (numpy_getitem embedding wid) ;;
     write file_name (embedding_line w r)))%py.

(** ** GeneVector *)

(** [GeneVector.__init__] *)
Definition GeneVector_init (dataset : GeneVectorDataset) (output_file : string)
    (emb_dimension : nat) (batch_size : pyval) (gain : Q) (c : Q)
    (device : string) (init_ortho : bool) : result GeneVector :=
  let dataset := create_inputs_outputs c dataset in
  let emb_size := length (gene2id (data dataset)) in
  let batch_size :=
    match batch_size with
    | PyNone => if num_pairs dataset =? 0 then PyFloat (1000000 # 1)
                else PyInt (num_pairs dataset)
    | b => b
    end in
  let use_cuda := cuda_is_available in
  let model := GeneVectorModel_init emb_size emb_dimension gain init_ortho in
  if String.eqb device "cuda" && negb use_cuda then
    Raise (ValueError "CUDA requested but no GPU available.")
  else
    let model := if String.eqb device "cuda" then cuda model else model in
    Ok {| dataset := dataset;
          init_ortho := init_ortho;
          output_file_name := output_file;
          emb_size := emb_size;
          emb_dimension := emb_dimension;
          batch_size := batch_size;
          use_cuda := use_cuda;
          model := model;
          device := device;
          optimizer := {| steps := 0; acc := acc_init |};
          epoch := 0;
          loss_values := [];
          mean_loss_values := [] |}.

(** #STEP2 of the batch body: [alpha * (wTw ** 2).sum()] with the diagonal
    of [wTw = w1 w2^T] zeroed. *)
Definition orthogonality_penalty (alpha : Q) (w1 w2 : Tensor) : result Q :=
  rbind (matmul w1 (t w2)) (fun wTw =>
  let wTw := fill_diagonal_ wTw 0 in
  let t1 := tsum (pow2 wTw) in
  Ok (alpha * t1)%Q).

(** #STEP3 of the batch body. *)
Definition magnitude_penalty (beta : Q) (w1 w2 : Tensor) (ent : list Q)
  : result Q :=
  rbind (matmul w1 (t w2)) (fun wTw =>
  let diag := diag wTw in
  rbind (broadcast Qminus diag ent) (fun t2 =>
  let t2 := Qsum (map (fun x => x * x)%Q t2) in
  Ok (beta * t2)%Q)).

(** The total loss of a batch, before the update. *)
Definition batch_loss (self : GeneVector) (alpha beta : Q) (b : batch)
  : result Q :=
  rbind (forward (model self) (i_idx b) (j_idx b)) (fun outputs =>
  rbind (mse_loss outputs (x_ij b)) (fun loss =>
  let w1 := wi (model self) in
  let w2 := wj (model self) in
  rbind (orthogonality_penalty alpha w1 w2) (fun t1 =>
  rbind (magnitude_penalty beta w1 w2 (_ent (dataset self))) (fun t2 =>
  Ok (loss + t1 + t2)%Q)))).

(** In-place update of a table. *)
Definition set_entries (w : Tensor) (e : nat -> nat -> Q) : Tensor :=
  {| shape0 := shape0 w; shape1 := shape1 w; entry := e |}.

(** The effect of [optimizer.step()] and [loss_values.append(loss.item())]. *)
Definition apply_step (self : GeneVector) (alpha beta : Q) (b : batch)
    (loss : Q) : GeneVector :=
  let m := model self in
  let '(acc', ei, ej) :=
    backward_step (acc (optimizer self)) (wi m) (wj m) b alpha beta
                  (_ent (dataset self)) in
  {| dataset := dataset self;
     init_ortho := init_ortho self;
     output_file_name := output_file_name self;
     emb_size := emb_size self;
     emb_dimension := emb_dimension self;
     batch_size := batch_size self;
     use_cuda := use_cuda self;
     model := {| num_embeddings := num_embeddings m;
                 embedding_dim := embedding_dim m;
                 wi := set_entries (wi m) ei;
                 wj := set_entries (wj m) ej;
                 param_device := param_device m;
                 training := training m |};
     device := device self;
     optimizer := {| steps := S (steps (optimizer self)); acc := acc' |};
     epoch := epoch self;
     loss_values := loss_values self ++ [loss];
     mean_loss_values := mean_loss_values self |}.

(** The trainer and the world it writes to. *)
Definition St : Type := GeneVector * World.

(** The body of the loop over the batches.  Nothing is changed before
    [optimizer.step()]; the local counter [batch_i], which is never read, is
    left out. *)
Definition train_batch (alpha beta : Q) (b : batch) : Py St unit :=
  fun '(self, w) =>
    match batch_loss self alpha beta b with
    | Ok loss => ((apply_step self alpha beta b loss, w), Ok tt)
    | Raise e => ((self, w), Raise e)
    end.

(** The trainer with its dataset replaced. *)
Definition with_dataset (self : GeneVector) (d : GeneVectorDataset) : GeneVector :=
  {| dataset := d;
     init_ortho := init_ortho self;
     output_file_name := output_file_name self;
     emb_size := emb_size self;
     emb_dimension := emb_dimension self;
     batch_size := batch_size self;
     use_cuda := use_cuda self;
     model := model self;
     device := device self;
     optimizer := optimizer self;
     epoch := epoch self;
     loss_values := loss_values self;
     mean_loss_values := mean_loss_values self |}.

(** [self.dataset.get_batches(self.batch_size)] *)
Definition request_batches : Py St (list batch) :=
  fun '(self, w) =>
    let d := dataset self in
    ((with_dataset self (next_sweep d), w),
     Ok (get_batches d (batch_size self) (sweeps d))).

(** The trainer after [self.mean_loss_values.append(x)]. *)
Definition add_mean (self : GeneVector) (x : option Q) : GeneVector :=
  {| dataset := dataset self;
     init_ortho := init_ortho self;
     output_file_name := output_file_name self;
     emb_size := emb_size self;
     emb_dimension := emb_dimension self;
     batch_size := batch_size self;
     use_cuda := use_cuda self;
     model := model self;
     device := device self;
     optimizer := optimizer self;
     epoch := epoch self;
     loss_values := loss_values self;
     mean_loss_values := mean_loss_values self ++ [x] |}.

Definition append_mean (x : option Q) : Py St unit :=
  fun '(self, w) => ((add_mean self x, w), Ok tt).

(** The trainer after [self.epoch += 1]. *)
Definition bump_epoch (self : GeneVector) : GeneVector :=
  {| dataset := dataset self;
     init_ortho := init_ortho self;
     output_file_name := output_file_name self;
     emb_size := emb_size self;
     emb_dimension := emb_dimension self;
     batch_size := batch_size self;
     use_cuda := use_cuda self;
     model := model self;
     device := device self;
     optimizer := optimizer self;
     epoch := epoch self + 1;
     loss_values := loss_values self;
     mean_loss_values := mean_loss_values self |}.

Definition incr_epoch : Py St unit :=
  fun '(self, w) => ((bump_epoch self, w), Ok tt).

(** An action on the world, run from the trainer. *)
Definition in_world {A} (c : Py World A) : Py St A :=
  fun '(self, w) => let '(w', r) := c w in ((self, w'), r).

Definition get_self : Py St GeneVector := fun '(self, w) => ((self, w), Ok self).

(** [type(threshold) == float and abs(curr_loss - last_loss) < threshold];
    a comparison with nan is false. *)
Definition converged (threshold : pyval) (curr_loss last_loss : option Q) : bool :=
  match threshold with
  | PyFloat th =>
      match curr_loss, last_loss with
      | Some c, Some l => Qltb (Qabs (c - l)) th
      | _, _ => false
      end
  | _ => false
  end.

(** The diagnostic line of an epoch. *)
Definition epoch_line (self : GeneVector) : string :=
  (bcolors.OKGREEN +:+ "**** Epoch" +:+ bcolors.ENDC) +:+ " " +:+
  str_int (epoch self) +:+ " " +:+
  (bcolors.HEADER +:+ tab +:+ "Loss:" +:+ bcolors.ENDC) +:+ " " +:+
  str_round5 (numpy_mean (last_n 30 (loss_values self))).

(** [if self.epoch % int(update_interval) == 0: print(...)] *)
Definition log_epoch (update_interval : pyval) : Py St unit :=
  (self <~ get_self ;;
   n <~ lift (py_int update_interval) ;;
   if n =? 0 then raise ZeroDivisionError
   else if epoch self mod n =? 0 then in_world (print (epoch_line self))
   else ret tt)%py.

(** The two calls of [save_embedding] that end [train]. *)
Definition save_both : Py St unit :=
  (self <~ get_self ;;
   in_world (save_embedding (model self) (id2gene (data (dataset self)))
               (output_file_name self) 0) ;;;
   in_world (save_embedding (model self) (id2gene (data (dataset self)))
               (str_replace (output_file_name self) ".vec" "2.vec") 1))%py.

(** How the body of the loop over the epochs ends: with [return], or by
    falling through to the next iteration with the new [last_loss]. *)
Inductive flow :=
  | Return
  | Next (last_loss : option Q).

(** The loop over the batches of an epoch. *)
Definition run_sweep (alpha beta : Q) : Py St unit :=
  (batches <~ request_batches ;;
   for_each batches (train_batch alpha beta))%py.

(** The end of the body of the loop over the epochs: the convergence test
    and what follows it. *)
Definition stop_or_continue (threshold : pyval) (curr_loss last_loss : option Q)
  : Py St flow :=
  (if converged threshold curr_loss last_loss then
     in_world (print (bcolors.OKCYAN +:+ "Training complete!" +:+ bcolors.ENDC)) ;;;
     save_both ;;;
     ret Return
   else
     incr_epoch ;;;
     ret (Next curr_loss))%py.

(** The body of the loop over the epochs, after the loop over the batches. *)
Definition finish_epoch (threshold update_interval : pyval)
    (last_loss : option Q) : Py St flow :=
  (self <~ get_self ;;
   append_mean (numpy_mean (last_n 10 (loss_values self))) ;;;
   let curr_loss := numpy_mean (last_n 10 (loss_values self)) in
   log_epoch update_interval ;;;
   stop_or_continue threshold curr_loss last_loss)%py.

(** The body of the loop over the epochs. *)
Definition train_epoch (threshold update_interval : pyval) (alpha beta : Q)
    (last_loss : option Q) : Py St flow :=
  (run_sweep alpha beta ;;;
   finish_epoch threshold update_interval last_loss)%py.

(** [for _ in range(1, epochs+1)] with [n] iterations left, then the code
    after the loop. *)
Fixpoint train_loop (n : nat) (threshold update_interval : pyval)
    (alpha beta : Q) (last_loss : option Q) : Py St unit :=
  match n with
  | O =>
      (in_world (print (bcolors.WARNING +:+ "Saving model..." +:+ bcolors.ENDC)) ;;;
       save_both)%py
  | S n' =>
      (r <~ train_epoch threshold update_interval alpha beta last_loss ;;
       match r with
       | Return => ret tt
       | Next curr_loss =>
           train_loop n' threshold update_interval alpha beta curr_loss
       end)%py
  end.

(** [GeneVector.train] *)
Definition train (epochs : Z) (threshold update_interval : pyval)
    (alpha beta : Q) : Py St unit :=
  train_loop (Z.to_nat epochs) threshold update_interval alpha beta (Some 0%Q).

(** [nn.Module.state_dict()] *)
Definition model_state_dict (m : GeneVectorModel) : state_dict :=
  [("wi.weight", wi m); ("wj.weight", wj m)].

(** [torch.save(obj, filepath)] *)
Definition torch_save (sd : state_dict) (filepath : string) : Py World unit :=
  fun w => ({| files := <[filepath := BlobFile sd]> (files w);
               stdout := stdout w |}, Ok tt).

(** [torch.load(filepath)] *)
Definition torch_load (filepath : string) : Py World state_dict :=
  fun w => match files w !! filepath with
           | Some (BlobFile sd) => (w, Ok sd)
           | _ => (w, Raise RuntimeError)
           end.

(** [sd[key]] *)
Fixpoint sd_lookup (sd : state_dict) (key : string) : option Tensor :=
  match sd with
  | [] => None
  | (k, v) :: sd' => if String.eqb k key then Some v else sd_lookup sd' key
  end.

(** [nn.Module.load_state_dict(sd)], strict: the keys are those of the
    module and the shapes agree; the entries are copied in place. *)
Definition load_state_dict (m : GeneVectorModel) (sd : state_dict)
  : result GeneVectorModel :=
  match sd_lookup sd "wi.weight", sd_lookup sd "wj.weight" with
  | Some a, Some b =>
      if (length sd =? 2)%nat
         && (shape0 a =? shape0 (wi m))%nat && (shape1 a =? shape1 (wi m))%nat
         && (shape0 b =? shape0 (wj m))%nat && (shape1 b =? shape1 (wj m))%nat
      then Ok {| num_embeddings := num_embeddings m;
                 embedding_dim := embedding_dim m;
                 wi := set_entries (wi m) (entry a);
                 wj := set_entries (wj m) (entry b);
                 param_device := param_device m;
                 training := training m |}
      else Raise RuntimeError
  | _, _ => Raise RuntimeError
  end.

(** The attributes [__init__] gives a trainer. *)
Definition GeneVector_attributes : list string :=
  ["dataset"; "init_ortho"; "output_file_name"; "emb_size"; "emb_dimension";
   "batch_size"; "use_cuda"; "model"; "device"; "optimizer"; "loss"; "epoch";
   "loss_values"; "mean_loss_values"].

(** [self.<name>] where an embedding model is expected: a name that is no
    attribute raises; of the attributes, [model] is the embedding model and
    none of the others can take its parameters. *)
Definition getattr_module (self : GeneVector) (name : string)
  : result GeneVectorModel :=
  if bool_decide (name ∈ GeneVector_attributes) then
    if String.eqb name "model" then Ok (model self)
    else Raise TypeError
  else Raise (AttributeError name).

Definition set_model (self : GeneVector) (m : GeneVectorModel) : GeneVector :=
  {| dataset := dataset self;
     init_ortho := init_ortho self;
     output_file_name := output_file_name self;
     emb_size := emb_size self;
     emb_dimension := emb_dimension self;
     batch_size := batch_size self;
     use_cuda := use_cuda self;
     model := m;
     device := device self;
     optimizer := optimizer self;
     epoch := epoch self;
     loss_values := loss_values self;
     mean_loss_values := mean_loss_values self |}.

(** [GeneVector.save] *)
Definition save (filepath : string) : Py St unit :=
  (self <~ get_self ;;
   in_world (torch_save (model_state_dict (model self)) filepath))%py.

(** [GeneVector.load]: the receiver [self.gnn] is evaluated first, then the
    argument, then the two calls. *)
Definition load (filepath : string) : Py St unit :=
  (self <~ get_self ;;
   gnn <~ lift (getattr_module self "gnn") ;;
   sd <~ in_world (torch_load filepath) ;;
   gnn <~ lift (load_state_dict gnn sd) ;;
   (fun '(self, w) => ((set_model self (eval gnn), w), Ok tt)))%py.

End Program.

(** ** Notions the statements use *)

(** Both tables have the shape the model was created with. *)
Definition shape_ok (m : GeneVectorModel) : Prop :=
  shape0 (wi m) = num_embeddings m /\ shape1 (wi m) = embedding_dim m /\
  shape0 (wj m) = num_embeddings m /\ shape1 (wj m) = embedding_dim m.

(** [sum_k W_i[i,k] * W_j[j,k]] *)
Definition dot (m : GeneVectorModel) (i j : Z) : Q :=
  Qsum_upto (embedding_dim m)
    (fun k => entry (wi m) (Z.to_nat i) k * entry (wj m) (Z.to_nat j) k)%Q.

(** Every index of a sequence is a row of a table with [n] rows. *)
Definition rows_of (n : nat) (l : list Z) : Prop :=
  Forall (fun i => 0 <= i < Z.of_nat n) l.

(** The sum of the squared entries of [W_i W_j^T] off the diagonal. *)
Definition off_diagonal_energy (w1 w2 : Tensor) : Q :=
  Qsum_upto (shape0 w1) (fun a =>
    Qsum (map (fun b =>
                 let s := Qsum_upto (shape1 w1)
                            (fun k => entry w1 a k * entry w2 b k)%Q in
                 s * s)%Q
              (filter (fun b => b <> a) (seq 0 (shape0 w2))))).

(** [W_i W_j^T] is a diagonal matrix. *)
Definition product_diagonal (w1 w2 : Tensor) : Prop :=
  forall a b, (a < shape0 w1)%nat -> (b < shape0 w2)%nat -> a <> b ->
    (Qsum_upto (shape1 w1) (fun k => entry w1 a k * entry w2 b k) == 0)%Q.

(** No line feed in a string. *)
Fixpoint nl_free (s : string) : bool :=
  match s with
  | EmptyString => true
  | String c s' => negb (Ascii.eqb c (Ascii.ascii_of_nat 10)) && nl_free s'
  end.

(** The lines of a text, each ended by a line feed; what follows the last
    line feed is a line when it is not empty. *)
Fixpoint str_lines_from (cur s : string) : list string :=
  match s with
  | EmptyString => if String.eqb cur "" then [] else [cur]
  | String c s' =>
      if Ascii.eqb c (Ascii.ascii_of_nat 10) then cur :: str_lines_from "" s'
      else str_lines_from (cur +:+ String c "") s'
  end.
Definition str_lines (s : string) : list string := str_lines_from "" s.

(** [sub] occurs in [s]. *)
Fixpoint occurs (sub s : string) : bool :=
  match s with
  | EmptyString => String.prefix sub ""
  | String _ s' => String.prefix sub s || occurs sub s'
  end.

(** [s] with a trailing [old] replaced by [new], and [s] itself when it does
    not end in [old]. *)
Fixpoint replace_trailing (s old new : string) : string :=
  match s with
  | EmptyString => if String.eqb old "" then new else ""
  | String c s' =>
      if String.eqb s old then new else String c (replace_trailing s' old new)
  end.

Section Notions.
Context `{B : Backend}.

(** The text [save_embedding] leaves in the file: the header, then one line
    per entry of the mapping, in the order of the mapping. *)
Definition export_lines (m : GeneVectorModel) (tbl : Tensor)
    (id2word : list (Z * string)) : list string :=
  (str_nat (length id2word) +:+ " " +:+ str_nat (embedding_dim m)) ::
  map (fun '(wid, w) =>
         w +:+ " " +:+ str_join " " (map str_float (row tbl (Z.to_nat wid))))
      id2word.

Definition export_text (m : GeneVectorModel) (tbl : Tensor)
    (id2word : list (Z * string)) : string :=
  fold_right (fun l text => l +:+ nl +:+ text) "" (export_lines m tbl id2word).

(** The vocabulary indices a dataset carries. *)
Definition vocabulary (d : GeneVectorDataset) : list Z :=
  map snd (gene2id (data d)) ++ map fst (id2gene (data d)).

(** The indices of the dataset are below the size of its gene-to-index
    mapping. *)
Definition vocab_ok (d : GeneVectorDataset) : Prop :=
  rows_of (length (gene2id (data d))) (vocabulary d).

(** The invariant of a trainer. *)
Definition invariant (self : GeneVector) : Prop :=
  let m := model self in
  emb_size self = length (gene2id (data (dataset self))) /\
  (shape0 (wi m) = emb_size self /\ shape1 (wi m) = emb_dimension self) /\
  (shape0 (wj m) = emb_size self /\ shape1 (wj m) = emb_dimension self) /\
  (rows_of (shape0 (wi m)) (vocabulary (dataset self)) /\
   rows_of (shape0 (wj m)) (vocabulary (dataset self))) /\
  length (loss_values self) = steps (optimizer self).

(** The trainers a program can hold: built by the constructor over a
    well-formed dataset, then taken through sweeps, batches, epochs, whole
    calls of [train], and calls of [save] and [load], whatever their
    outcome. *)
Inductive reachable : GeneVector -> Prop :=
  | reach_init ds out dim bs gain c dev ortho self :
      vocab_ok (create_inputs_outputs c ds) ->
      GeneVector_init ds out dim bs gain c dev ortho = Ok self ->
      reachable self
  | reach_request self w self' w' r :
      reachable self ->
      request_batches (self, w) = ((self', w'), r) ->
      reachable self'
  | reach_batch self w alpha beta b self' w' r :
      reachable self ->
      train_batch alpha beta b (self, w) = ((self', w'), r) ->
      reachable self'
  | reach_epoch self w th ui alpha beta last self' w' r :
      reachable self ->
      train_epoch th ui alpha beta last (self, w) = ((self', w'), r) ->
      reachable self'
  | reach_train self w epochs th ui alpha beta self' w' r :
      reachable self ->
      train epochs th ui alpha beta (self, w) = ((self', w'), r) ->
      reachable self'
  | reach_save self w filepath self' w' r :
      reachable self ->
      save filepath (self, w) = ((self', w'), r) ->
      reachable self'
  | reach_load self w filepath self' w' r :
      reachable self ->
      load filepath (self, w) = ((self', w'), r) ->
      reachable self'.

(** The mapping of the dataset can be exported from both tables. *)
Definition exportable (self : GeneVector) : Prop :=
  rows_of (shape0 (wi (model self))) (map fst (id2gene (data (dataset self)))) /\
  rows_of (shape0 (wj (model self))) (map fst (id2gene (data (dataset self)))).

Definition keeps_invariant : St -> St -> Prop :=
  fun st st' => invariant (fst st) -> invariant (fst st').

(** The console only grows. *)
Definition stdout_grows : St -> St -> Prop :=
  fun st st' => exists rest, stdout (snd st') = stdout (snd st) ++ rest.

(** What the body of the loop over the batches leaves alone. *)
Definition batch_frame : St -> St -> Prop :=
  fun st st' =>
    dataset (fst st') = dataset (fst st) /\
    epoch (fst st') = epoch (fst st) /\
    output_file_name (fst st') = output_file_name (fst st) /\
    mean_loss_values (fst st') = mean_loss_values (fst st) /\
    snd st' = snd st.

End Notions.

(** ** A small backend and dataset to run the program on *)

Definition toy_str_float (q : Q) : string :=
  str_int (Qnum q) +:+ "/" +:+ str_int (Z.pos (Qden q)).

Definition toy_mse (outputs x : list Q) : result Q :=
  rbind (broadcast Qminus outputs x) (fun d =>
  match numpy_mean (map (fun v => v * v)%Q d) with
  | Some v => Ok v
  | None => Raise RuntimeError
  end).

Definition toy_backend : Backend := {|
  acc_state := unit;
  acc_init := tt;
  init_weight := fun ortho gain V D tbl r c =>
    if ortho then (if (r =? c)%nat then gain else 0%Q)
    else (inject_Z (Z.of_nat (r + 2 * c + tbl)) / 4 - 1)%Q;
  cuda_is_available := false;
  mse_loss := toy_mse;
  backward_step := fun a w1 w2 b alpha beta ent =>
    (a, fun r c => (entry w1 r c * (1 # 2))%Q, fun r c => (entry w2 r c * (1 # 2))%Q);
  str_float := toy_str_float;
  str_round5 := fun m => match m with Some q => toy_str_float q | None => "nan" end;
  create_inputs_outputs := fun c d => d
|}.

Definition toy_dataset : GeneVectorDataset := {|
  data := {| gene2id := [("A", 0); ("B", 1); ("C", 2)];
             id2gene := [(2, "C"); (0, "A"); (1, "B")] |};
  num_pairs := 2;
  _ent := [1%Q; 1%Q; 1%Q];
  get_batches := fun _ _ =>
    [ {| x_ij := [1%Q; 0%Q]; i_idx := [0; 1]; j_idx := [1; 2] |} ];
  sweeps := 0
|}.

Definition empty_world : World := {| files := ∅; stdout := [] |}.

(** A trainer over the small dataset, as the constructor builds it. *)
Definition toy_trainer (output_file device : string) (init_ortho : bool)
  : result (@GeneVector toy_backend) :=
  @GeneVector_init toy_backend toy_dataset output_file 2 PyNone 1 100 device init_ortho.

(** ** Notions of the further properties *)

Section FurtherNotions.
Context `{B : Backend}.

(** What a run has recorded stays recorded, and its counters do not go
    back. *)
Definition progress : St -> St -> Prop :=
  fun st st' =>
    (exists more, loss_values (fst st') = loss_values (fst st) ++ more) /\
    (exists more,
       mean_loss_values (fst st') = mean_loss_values (fst st) ++ more) /\
    epoch (fst st) <= epoch (fst st') /\
    (sweeps (dataset (fst st)) <= sweeps (dataset (fst st')))%nat /\
    (steps (optimizer (fst st)) <= steps (optimizer (fst st')))%nat.

(** The configuration of the trainer is kept, and no file but the two output
    files is touched. *)
Definition run_frame : St -> St -> Prop :=
  fun st st' =>
    output_file_name (fst st') = output_file_name (fst st) /\
    emb_size (fst st') = emb_size (fst st) /\
    emb_dimension (fst st') = emb_dimension (fst st) /\
    batch_size (fst st') = batch_size (fst st) /\
    device (fst st') = device (fst st) /\
    data (dataset (fst st')) = data (dataset (fst st)) /\
    (forall p, p <> output_file_name (fst st) ->
               p <> str_replace (output_file_name (fst st)) ".vec" "2.vec" ->
               files (snd st') !! p = files (snd st) !! p).

(** The text of a file that [save_embedding] has begun: the header announces
    [n] entries, the rows are those of [written]. *)
Definition partial_export_text (m : GeneVectorModel) (tbl : Tensor) (n : nat)
    (written : list (Z * string)) : string :=
  fold_right (fun l text => l +:+ nl +:+ text) ""
    ((str_nat n +:+ " " +:+ str_nat (embedding_dim m)) ::
     map (fun '(wid, w) =>
            w +:+ " " +:+ str_join " " (map str_float (row tbl (Z.to_nat wid))))
         written).

End FurtherNotions.

(** The small dataset without a batch to yield. *)
Definition silent_dataset : GeneVectorDataset := {|
  data := data toy_dataset;
  num_pairs := 0;
  _ent := _ent toy_dataset;
  get_batches := fun _ _ => [];
  sweeps := 0
|}.


(** Of [n] consecutive epochs, the first with counter [e], the number whose
    counter is a multiple of [k]. *)
Fixpoint logged_epochs (k e : Z) (n : nat) : nat :=
  match n with
  | O => 0%nat
  | S n' => ((if (e mod k =? 0)%Z then 1 else 0)
             + logged_epochs k (e + 1)%Z n')%nat
  end.

(** ** Notions of the convergence of a run *)

(** The convergence test on two numbers: the current loss is within [t] of
    the previous one.  It fails when either is not-a-number. *)
Definition loss_settled (t : Q) (curr last : option Q) : Prop :=
  exists c l, curr = Some c /\ last = Some l /\ (Qabs (c - l) < t)%Q.

Section ConvergenceNotions.
Context `{B : Backend}.

(** [unsettled_epochs t ui alpha beta last st n last' st']: from the state
    [st], [n] epochs in a row are run to their end without their loss being
    settled.  Each epoch sweeps the batches, records the mean of the last ten
    loss values, logs, and compares that mean with the one of the epoch
    before it ([last] for the first of them); it hands its own mean on to the
    next epoch and counts one epoch more.  [last'] is the mean of the last of
    these epochs and [st'] the state after it. *)
Inductive unsettled_epochs (t : Q) (ui : pyval) (alpha beta : Q)
  : option Q -> St -> nat -> option Q -> St -> Prop :=
  | unsettled_none last st :
      unsettled_epochs t ui alpha beta last st 0 last st
  | unsettled_next last st self1 w1 self2 w2 n last' st' :
      run_sweep alpha beta st = ((self1, w1), Ok tt) ->
      log_epoch ui (add_mean self1 (numpy_mean (last_n 10 (loss_values self1))),
                    w1)
      = ((self2, w2), Ok tt) ->
      ~ loss_settled t (numpy_mean (last_n 10 (loss_values self1))) last ->
      unsettled_epochs t ui alpha beta
        (numpy_mean (last_n 10 (loss_values self1)))
        (bump_epoch self2, w2) n last' st' ->
      unsettled_epochs t ui alpha beta last st (S n) last' st'.

End ConvergenceNotions.

(** * Properties *)

(** ** The score *)

Lemma Qsum_zip_mul (f g : nat -> Q) (l : list nat) :
  Qsum (zip_with Qmult (map f l) (map g l)) = Qsum (map (fun k => f k * g k)%Q l).
Proof.
  induction l as [|k l IH]; simpl; [reflexivity|].
  now rewrite IH.
Qed.

Lemma embedding_rows (w : Tensor) (l : list Z) :
  rows_of (shape0 w) l ->
  embedding w l = Ok (map (fun i => row w (Z.to_nat i)) l).
Proof.
  unfold embedding.
  induction 1 as [|i l Hi _ IH]; simpl; [reflexivity|].
  assert ((0 <=? i) && (i <? Z.of_nat (shape0 w)) = true) as ->.
  { apply andb_true_iff. split; [apply Z.leb_le | apply Z.ltb_lt]; lia. }
  simpl. now rewrite IH.
Qed.

Lemma row_dot (m : GeneVectorModel) (i j : Z) :
  shape1 (wi m) = embedding_dim m -> shape1 (wj m) = embedding_dim m ->
  Qsum (zip_with Qmult (row (wi m) (Z.to_nat i)) (row (wj m) (Z.to_nat j)))
  = dot m i j.
Proof.
  intros Hi Hj. unfold row, dot, Qsum_upto. rewrite Hi, Hj.
  apply Qsum_zip_mul.
Qed.

Lemma scores_zip (m : GeneVectorModel) (l1 l2 : list Z) :
  shape1 (wi m) = embedding_dim m -> shape1 (wj m) = embedding_dim m ->
  map Qsum (zip_with (zip_with Qmult)
              (map (fun i => row (wi m) (Z.to_nat i)) l1)
              (map (fun j => row (wj m) (Z.to_nat j)) l2))
  = zip_with (dot m) l1 l2.
Proof.
  intros Hi Hj. revert l2.
  induction l1 as [|i l1 IH]; intros [|j l2]; simpl; try reflexivity.
  rewrite IH. f_equal. now apply row_dot.
Qed.

(** C1. On a model whose tables have the shape it was created with, and on
    two index sequences of equal length with entries in
    [0, vocabulary_size), [forward] returns, position by position, the sum
    over [k] of [W_i[idx_i,k] * W_j[idx_j,k]].  The result is a value
    computed from the model: [forward] yields no new model, so neither table
    changes. *)
Theorem forward_is_rowwise_dot (m : GeneVectorModel) (i_indices j_indices : list Z) :
  shape_ok m ->
  length i_indices = length j_indices ->
  rows_of (num_embeddings m) i_indices ->
  rows_of (num_embeddings m) j_indices ->
  forward m i_indices j_indices = Ok (zip_with (dot m) i_indices j_indices)
  /\ forall p i j, i_indices !! p = Some i -> j_indices !! p = Some j ->
       zip_with (dot m) i_indices j_indices !! p
       = Some (Qsum_upto (embedding_dim m)
                 (fun k => entry (wi m) (Z.to_nat i) k
                           * entry (wj m) (Z.to_nat j) k)%Q).
Proof.
  intros (Hi0 & Hi1 & Hj0 & Hj1) Hlen Hi Hj. split.
  - unfold forward.
    rewrite embedding_rows by now rewrite Hi0.
    rewrite embedding_rows by now rewrite Hj0.
    simpl. unfold broadcast.
    rewrite !length_map, Hlen, Nat.eqb_refl. simpl.
    now rewrite scores_zip.
  - intros p i j Hp Hq.
    rewrite lookup_zip_with, Hp. simpl. now rewrite Hq.
Qed.

(** C1 on a model of three rows and two columns. *)
Lemma forward_is_rowwise_dot_witness :
  match toy_trainer "genes.vec" "cpu" false with
  | Ok tr => forward (model tr) [0; 2] [1; 1]
             = Ok (zip_with (dot (model tr)) [0; 2] [1; 1])
  | Raise _ => False
  end.
Proof.
  simpl.
  refine (proj1 (forward_is_rowwise_dot _ [0; 2] [1; 1] _ _ _ _)).
  - repeat split.
  - reflexivity.
  - repeat (constructor; [simpl; lia|]); constructor.
  - repeat (constructor; [simpl; lia|]); constructor.
Defined.

(** ** The orthogonality penalty *)

Lemma Qsum_map_ext (f g : nat -> Q) (l : list nat) :
  (forall x, In x l -> (f x == g x)%Q) ->
  (Qsum (map f l) == Qsum (map g l))%Q.
Proof.
  induction l as [|x l IH]; intros H; simpl; [reflexivity|].
  rewrite (H x) by now left.
  rewrite IH; [reflexivity|]. intros y Hy. apply H. now right.
Qed.

Lemma Qsum_map_zero (f : nat -> Q) (l : list nat) :
  (forall x, In x l -> (f x == 0)%Q) -> (Qsum (map f l) == 0)%Q.
Proof.
  induction l as [|x l IH]; intros H; simpl; [reflexivity|].
  rewrite (H x) by now left.
  rewrite IH; [reflexivity|]. intros y Hy. apply H. now right.
Qed.

(** Zeroed entries contribute nothing: the sum over a row with the diagonal
    position zeroed is the sum over the other positions. *)
Lemma Qsum_skip_diagonal (a : nat) (f : nat -> Q) (l : list nat) :
  (Qsum (map (fun b => (if (a =? b)%nat then 0 else f b)
                       * (if (a =? b)%nat then 0 else f b)) l)
   == Qsum (map (fun b => f b * f b) (filter (fun b => b <> a) l)))%Q.
Proof.
  induction l as [|b l IH]; simpl; [reflexivity|].
  rewrite filter_cons. destruct (Nat.eqb_spec a b) as [->|Hab].
  - rewrite decide_False by (intros H; now apply H).
    rewrite IH. ring.
  - rewrite decide_True by congruence.
    simpl. now rewrite IH.
Qed.

Lemma orthogonality_penalty_value (alpha : Q) (w1 w2 : Tensor) :
  shape1 w1 = shape1 w2 ->
  orthogonality_penalty alpha w1 w2
  = Ok (alpha * Qsum_upto (shape0 w1) (fun a => Qsum_upto (shape0 w2) (fun b =>
      (if (a =? b)%nat then 0
       else Qsum_upto (shape1 w1) (fun k => entry w1 a k * entry w2 b k))
      * (if (a =? b)%nat then 0
         else Qsum_upto (shape1 w1) (fun k => entry w1 a k * entry w2 b k)))))%Q.
Proof.
  intros H. unfold orthogonality_penalty, matmul. simpl.
  rewrite H, Nat.eqb_refl. simpl. rewrite <- H. reflexivity.
Qed.

(** C7. The orthogonality penalty of a batch, computed on the two tables of
    a model, is [alpha] times the sum of the squared off-diagonal entries of
    [W_i W_j^T]; it is zero, whatever [alpha], when [W_i W_j^T] is a
    diagonal matrix. *)
Theorem orthogonality_penalty_off_diagonal (alpha : Q) (m : GeneVectorModel) :
  shape_ok m ->
  exists p, orthogonality_penalty alpha (wi m) (wj m) = Ok p
    /\ (p == alpha * off_diagonal_energy (wi m) (wj m))%Q
    /\ (product_diagonal (wi m) (wj m) -> (p == 0)%Q).
Proof.
  intros (Hi0 & Hi1 & Hj0 & Hj1).
  eexists. split; [apply orthogonality_penalty_value; congruence|].
  split.
  - apply Qmult_comp; [reflexivity|].
    unfold off_diagonal_energy, Qsum_upto at 1 3.
    apply Qsum_map_ext. intros a _.
    unfold Qsum_upto at 1. apply Qsum_skip_diagonal.
  - intros Hd.
    assert (Qsum_upto (shape0 (wi m)) (fun a => Qsum_upto (shape0 (wj m)) (fun b =>
      (if (a =? b)%nat then 0
       else Qsum_upto (shape1 (wi m))
              (fun k => entry (wi m) a k * entry (wj m) b k))
      * (if (a =? b)%nat then 0
         else Qsum_upto (shape1 (wi m))
                (fun k => entry (wi m) a k * entry (wj m) b k)))) == 0)%Q as ->.
    { unfold Qsum_upto at 1. apply Qsum_map_zero. intros a Ha.
      unfold Qsum_upto at 1. apply Qsum_map_zero. intros b Hb.
      apply in_seq in Ha, Hb.
      destruct (Nat.eqb_spec a b) as [_|Hab]; [ring|].
      rewrite (Hd a b) by (lia || assumption). ring. }
    ring.
Qed.

(** C7 on an orthogonally initialised model: the rows of the two tables are
    those of the identity, so the product is diagonal. *)
Lemma orthogonality_penalty_off_diagonal_witness :
  let m := @GeneVectorModel_init toy_backend 3 2 1 true in
  exists p, orthogonality_penalty (7 # 2) (wi m) (wj m) = Ok p /\ (p == 0)%Q.
Proof.
  intros m.
  destruct (orthogonality_penalty_off_diagonal (7 # 2) m) as (p & Hp & _ & Hz).
  - repeat split.
  - exists p. split; [exact Hp|]. apply Hz.
    intros a b Ha Hb Hab. simpl in *.
    destruct a as [|[|[|a]]], b as [|[|[|b]]]; try lia; vm_compute; reflexivity.
Defined.

(** ** The path of the output-role file *)

Lemma prefix_vec_app (s rest : string) :
  s <> "" ->
  String.prefix ".vec" (s +:+ ".vec" +:+ rest) = true ->
  String.prefix ".vec" s = true.
Proof.
  intros Hs.
  destruct s as [|c1 [|c2 [|c3 [|c4 s]]]]; [congruence|..];
    cbv -[Ascii.ascii_dec];
    repeat match goal with
           | |- context [Ascii.ascii_dec ?a ?b] =>
               destruct (Ascii.ascii_dec a b) as [?|?]; [subst|];
               try congruence
           end.
  intros _. now destruct s.
Qed.

Lemma prefix_vec_head (rest : string) :
  String.prefix ".vec" (".vec" +:+ rest) = true.
Proof. cbv -[Ascii.ascii_dec]. now destruct rest. Qed.

Lemma replace_vec_absent (s : string) :
  occurs ".vec" s = false -> str_replace s ".vec" "2.vec" = s.
Proof.
  unfold str_replace.
  induction s as [|c s IH]; [reflexivity|].
  intros H. cbn [occurs] in H. apply orb_false_iff in H as [Hp Ho].
  cbn [replace_from]. rewrite Hp. now rewrite IH.
Qed.

Lemma replace_vec_first (stem rest : string) :
  occurs ".vec" stem = false ->
  str_replace (stem +:+ ".vec" +:+ rest) ".vec" "2.vec"
  = stem +:+ "2.vec" +:+ str_replace rest ".vec" "2.vec".
Proof.
  unfold str_replace.
  induction stem as [|c stem IH].
  { intros _.
    change (replace_from ".vec" "2.vec" ("" +:+ ".vec" +:+ rest) 0)
      with (if String.prefix ".vec" (".vec" +:+ rest)
            then "2.vec" +:+ replace_from ".vec" "2.vec" rest 0
            else String (Ascii.ascii_of_nat 46)
                   (replace_from ".vec" "2.vec" ("vec" +:+ rest) 0)).
    now rewrite prefix_vec_head. }
  intros H. cbn [occurs] in H. apply orb_false_iff in H as [Hp Ho].
  change (String c stem +:+ ".vec" +:+ rest)
    with (String c (stem +:+ ".vec" +:+ rest)).
  cbn [replace_from].
  destruct (String.prefix ".vec" (String c (stem +:+ ".vec" +:+ rest))) eqn:E.
  - apply (prefix_vec_app (String c stem) rest) in E; congruence.
  - rewrite IH by assumption. reflexivity.
Qed.

(** C4, where the code departs from it.  The output-role path is computed by
    [str.replace], which rewrites every ".vec" of the output path and not
    only the trailing one: with the output path "gene.vectors.vec" the
    output-role table is not exported to "gene.vectors2.vec", the path with
    its trailing ".vec" replaced, but to "gene2.vectors2.vec". *)
Theorem output_role_path_rewrites_earlier_vec :
  let p := "gene.vectors.vec" in
  str_replace p ".vec" "2.vec" = "gene2.vectors2.vec"
  /\ replace_trailing p ".vec" "2.vec" = "gene.vectors2.vec"
  /\ match toy_trainer p "cpu" false with
     | Ok tr =>
         let w := snd (fst (@train toy_backend 0 PyNone (PyInt 20) 0 0
                             (tr, empty_world))) in
         files w !! "gene.vectors2.vec" = None
         /\ files w !! "gene2.vectors2.vec"
            = Some (TextFile (@export_text toy_backend (model tr) (wj (model tr))
                                [(2, "C"); (0, "A"); (1, "B")]))
     | Raise _ => False
     end.
Proof.
  split; [reflexivity|]. split; [reflexivity|].
  vm_compute. split; reflexivity.
Qed.

(** ** The exported file *)

Lemma str_app_assoc (a b c : string) : (a +:+ b) +:+ c = a +:+ b +:+ c.
Proof.
  induction a as [|x a IH]; [reflexivity|].
  change (String x ((a +:+ b) +:+ c) = String x (a +:+ b +:+ c)).
  now rewrite IH.
Qed.

Lemma str_app_nil_r (a : string) : a +:+ "" = a.
Proof.
  induction a as [|x a IH]; [reflexivity|].
  change (String x (a +:+ "") = String x a). now rewrite IH.
Qed.

Lemma nl_free_app (a b : string) : nl_free (a +:+ b) = nl_free a && nl_free b.
Proof.
  induction a as [|x a IH]; [reflexivity|].
  change (nl_free (String x (a +:+ b)) = nl_free (String x a) && nl_free b).
  cbn [nl_free]. rewrite IH. now rewrite andb_assoc.
Qed.

Lemma nl_free_uint (d : Decimal.uint) : nl_free (NilEmpty.string_of_uint d) = true.
Proof. induction d; cbn; auto. Qed.

Lemma nl_free_str_nat (n : nat) : nl_free (str_nat n) = true.
Proof.
  unfold str_nat, NilZero.string_of_uint.
  destruct (Nat.to_uint n); try apply nl_free_uint. reflexivity.
Qed.

Lemma nl_free_str_int (z : Z) : nl_free (str_int z) = true.
Proof.
  unfold str_int, NilZero.string_of_int, NilZero.string_of_uint.
  destruct (Z.to_int z) as [d|d]; destruct d;
    try reflexivity; try apply nl_free_uint;
    match goal with
    | |- nl_free (String ?c ?s) = true =>
        change (nl_free s = true); apply nl_free_uint
    end.
Qed.

Lemma nl_free_join (l : list string) :
  Forall (fun s => nl_free s = true) l -> nl_free (str_join " " l) = true.
Proof.
  induction 1 as [|x l Hx Hl IH]; [reflexivity|].
  destruct l as [|y l]; [exact Hx|].
  change (nl_free (x +:+ " " +:+ str_join " " (y :: l)) = true).
  rewrite !nl_free_app, Hx, IH. reflexivity.
Qed.

Lemma lookup_map {A C} (f : A -> C) (l : list A) (k : nat) :
  map f l !! k = option_map f (l !! k).
Proof.
  revert k. induction l as [|x l IH]; intros [|k]; try reflexivity.
  apply IH.
Qed.

(** A text that starts with a line without line feeds. *)
Lemma str_lines_from_line (l cur rest : string) :
  nl_free l = true ->
  str_lines_from cur (l +:+ nl +:+ rest) = (cur +:+ l) :: str_lines_from "" rest.
Proof.
  revert cur. induction l as [|c l IH]; intros cur H.
  - change (str_lines_from cur (String (Ascii.ascii_of_nat 10) rest)
            = (cur +:+ "") :: str_lines_from "" rest).
    cbn [str_lines_from]. rewrite Ascii.eqb_refl. now rewrite str_app_nil_r.
  - cbn [nl_free] in H. apply andb_true_iff in H as [Hc Hl].
    change (str_lines_from cur (String c (l +:+ nl +:+ rest))
            = (cur +:+ String c l) :: str_lines_from "" rest).
    cbn [str_lines_from].
    apply negb_true_iff in Hc. rewrite Hc.
    rewrite IH by assumption. now rewrite str_app_assoc.
Qed.

Lemma str_lines_text (ls : list string) :
  Forall (fun s => nl_free s = true) ls ->
  str_lines (fold_right (fun l text => l +:+ nl +:+ text) "" ls) = ls.
Proof.
  unfold str_lines.
  induction 1 as [|l ls Hl _ IH]; [reflexivity|].
  cbn [fold_right]. rewrite str_lines_from_line by assumption.
  now rewrite IH.
Qed.

Section ExportedFile.
Context `{B : Backend}.

(** The writes of the loop over the mapping, on a file that holds [text]. *)
Lemma for_each_lines (tbl : Tensor) (file_name : string)
    (id2word : list (Z * string)) (fs : gmap string File) (out : list string)
    (text : string) :
  rows_of (shape0 tbl) (map fst id2word) ->
  for_each id2word (fun '(wid, w) =>
      bind (lift (numpy_getitem tbl wid))
           (fun r => write file_name (embedding_line w r)))
    {| files := <[file_name := TextFile text]> fs; stdout := out |}
  = ({| files := <[file_name := TextFile
           (text +:+ fold_right (fun '(wid, w) rest =>
                       embedding_line w (row tbl (Z.to_nat wid)) +:+ rest)
                     "" id2word)]> fs;
        stdout := out |}, Ok tt).
Proof.
  revert text. induction id2word as [|[wid w] ids IH]; intros text H.
  - cbn. now rewrite str_app_nil_r.
  - unfold rows_of in H. cbn [map fst] in H.
    apply Forall_cons in H as [Hwid H].
    cbn [for_each]. unfold bind at 1. unfold bind at 1. unfold lift, numpy_getitem.
    assert ((0 <=? wid) && (wid <? Z.of_nat (shape0 tbl)) = true) as ->.
    { apply andb_true_iff. split; [apply Z.leb_le | apply Z.ltb_lt]; lia. }
    unfold write. cbn [files stdout].
    rewrite lookup_insert_eq, insert_insert_eq. cbn [text_of].
    rewrite IH by assumption. cbn [fold_right].
    now rewrite str_app_assoc.
Qed.

Lemma export_text_unfold (m : GeneVectorModel) (tbl : Tensor)
    (id2word : list (Z * string)) :
  header_line (length id2word) (embedding_dim m)
  +:+ fold_right (fun '(wid, w) rest =>
                    embedding_line w (row tbl (Z.to_nat wid)) +:+ rest)
                 "" id2word
  = export_text m tbl id2word.
Proof.
  unfold export_text, export_lines, header_line. cbn [fold_right].
  rewrite !str_app_assoc. do 4 f_equal.
  induction id2word as [|[wid w] ids IH]; [reflexivity|].
  cbn [fold_right map]. rewrite IH. unfold embedding_line.
  now rewrite !str_app_assoc.
Qed.

(** [save_embedding] on a mapping whose keys are rows of the table. *)
Lemma save_embedding_text (m : GeneVectorModel) (id2word : list (Z * string))
    (file_name : string) (layer : Z) (w : World) :
  let tbl := if layer =? 0 then wi m else wj m in
  rows_of (shape0 tbl) (map fst id2word) ->
  save_embedding m id2word file_name layer w
  = ({| files := <[file_name := TextFile (export_text m tbl id2word)]> (files w);
        stdout := stdout w |}, Ok tt).
Proof.
  intros tbl H. unfold save_embedding. fold tbl.
  unfold bind at 1. unfold open_w.
  unfold bind at 1. unfold write. cbn [files stdout].
  rewrite lookup_insert_eq, insert_insert_eq. cbn [text_of].
  rewrite (for_each_lines tbl file_name id2word (files w) (stdout w)) by assumption.
  change ("" +:+ header_line (length id2word) (embedding_dim m))
    with (header_line (length id2word) (embedding_dim m)).
  now rewrite export_text_unfold.
Qed.

Lemma export_lines_nl_free (m : GeneVectorModel) (tbl : Tensor)
    (id2word : list (Z * string)) :
  (forall q, nl_free (str_float q) = true) ->
  Forall (fun e => nl_free (snd e) = true) id2word ->
  Forall (fun s => nl_free s = true) (export_lines m tbl id2word).
Proof.
  intros Hf Hn. unfold export_lines. constructor.
  - now rewrite !nl_free_app, !nl_free_str_nat.
  - apply Forall_map. eapply Forall_impl; [exact Hn|].
    intros [wid w] Hw. cbn in Hw.
    rewrite !nl_free_app, Hw. cbn [nl_free andb].
    rewrite nl_free_join; [reflexivity|].
    apply Forall_map, Forall_forall. intros q _. apply Hf.
Qed.

(** C3. [save_embedding], on a mapping of as many entries as the vocabulary
    whose keys are vocabulary indices, leaves a text file of
    [vocabulary_size + 1] lines: the first is "<vocabulary_size>
    <embedding_dim>", and line [k + 1] is the name of the [k]-th entry of the
    mapping followed by the numbers of its row, separated by spaces, so the
    rows come in the order of the mapping.  (A name or the text of a number
    with a line feed in it would break a line: they have none.) *)
Theorem save_embedding_file (m : GeneVectorModel) (id2word : list (Z * string))
    (file_name : string) (layer : Z) (w : World) :
  let tbl := if layer =? 0 then wi m else wj m in
  shape_ok m ->
  length id2word = num_embeddings m ->
  rows_of (num_embeddings m) (map fst id2word) ->
  (forall q, nl_free (str_float q) = true) ->
  Forall (fun e => nl_free (snd e) = true) id2word ->
  exists text,
    save_embedding m id2word file_name layer w
    = ({| files := <[file_name := TextFile text]> (files w);
          stdout := stdout w |}, Ok tt)
    /\ length (str_lines text) = S (num_embeddings m)
    /\ str_lines text !! 0%nat
       = Some (str_nat (num_embeddings m) +:+ " " +:+ str_nat (embedding_dim m))
    /\ forall k wid name, id2word !! k = Some (wid, name) ->
         str_lines text !! S k
         = Some (name +:+ " " +:+
                 str_join " " (map str_float (row tbl (Z.to_nat wid)))).
Proof.
  intros tbl (Hi0 & _ & Hj0 & _) Hlen Hkeys Hf Hn.
  assert (shape0 tbl = num_embeddings m) as Hs by (unfold tbl; now destruct (layer =? 0)).
  exists (export_text m tbl id2word). split.
  { apply save_embedding_text. fold tbl. now rewrite Hs. }
  unfold export_text. rewrite str_lines_text by now apply export_lines_nl_free.
  unfold export_lines. split; [|split].
  - cbn [length]. now rewrite length_map, Hlen.
  - cbn. now rewrite Hlen.
  - intros k wid name Hk.
    rewrite lookup_cons, lookup_map, Hk. reflexivity.
Qed.

End ExportedFile.

Lemma toy_str_float_nl_free (q : Q) : nl_free (toy_str_float q) = true.
Proof.
  unfold toy_str_float. now rewrite !nl_free_app, !nl_free_str_int.
Qed.

(** C3 on a mapping that is not in index order: the row of index 2 comes
    first. *)
Lemma save_embedding_file_witness :
  let m := @GeneVectorModel_init toy_backend 3 2 1 false in
  exists text,
    @save_embedding toy_backend m [(2, "C"); (0, "A"); (1, "B")] "genes.vec" 0
      empty_world
    = ({| files := <["genes.vec" := TextFile text]> ∅; stdout := [] |}, Ok tt)
    /\ length (str_lines text) = 4%nat
    /\ str_lines text !! 0%nat = Some "3 2"
    /\ str_lines text !! 1%nat = Some "C -2/4 0/4"
    /\ str_lines text !! 2%nat = Some "A -4/4 -2/4".
Proof.
  intros m.
  destruct (@save_embedding_file toy_backend m [(2, "C"); (0, "A"); (1, "B")]
              "genes.vec" 0 empty_world)
    as (text & Hrun & Hlen & Hhead & Hrows).
  - repeat split.
  - reflexivity.
  - repeat (constructor; [simpl; lia|]); constructor.
  - exact toy_str_float_nl_free.
  - repeat (constructor; [reflexivity|]); constructor.
  - exists text. split; [exact Hrun|]. split; [exact Hlen|].
    split; [exact Hhead|]. split.
    + rewrite (Hrows 0%nat 2 "C" eq_refl). reflexivity.
    + rewrite (Hrows 1%nat 0 "A" eq_refl). reflexivity.
Defined.

(** ** The trainer *)

Lemma bind_ok {S A C} (c : Py S A) (k : A -> Py S C) (s s' : S) (a : A) :
  c s = (s', Ok a) -> bind c k s = k a s'.
Proof. intros H. unfold bind. now rewrite H. Qed.

Lemma bind_raise {S A C} (c : Py S A) (k : A -> Py S C) (s s' : S) (e : exn) :
  c s = (s', Raise e) -> bind c k s = (s', Raise e).
Proof. intros H. unfold bind. now rewrite H. Qed.

Section Trainer.
Context `{B : Backend}.

(** *** Construction *)

Lemma construct_cuda_unavailable ds out dim bs gain c ortho :
  cuda_is_available = false ->
  GeneVector_init ds out dim bs gain c "cuda" ortho
  = Raise (ValueError "CUDA requested but no GPU available.").
Proof. intros H. unfold GeneVector_init. rewrite H. reflexivity. Qed.

Lemma construct_cuda_available ds out dim bs gain c ortho :
  cuda_is_available = true ->
  exists self, GeneVector_init ds out dim bs gain c "cuda" ortho = Ok self
    /\ param_device (model self) = "cuda".
Proof.
  intros H. unfold GeneVector_init. rewrite H. cbn.
  eexists. split; reflexivity.
Qed.

(** C5, where the code departs from it.  Only the device named "cuda" is
    checked and moved to: with any other device name (the "cuda:0" and "mps"
    of the docstring among them) the constructor succeeds whether or not the
    device is available, and the parameters stay where they were created. *)
Theorem construct_ignores_other_devices ds out dim bs gain c dev ortho :
  dev <> "cuda" ->
  exists self, GeneVector_init ds out dim bs gain c dev ortho = Ok self
    /\ device self = dev
    /\ param_device (model self) = "cpu".
Proof.
  intros H. unfold GeneVector_init.
  apply String.eqb_neq in H. rewrite H. cbn.
  eexists. repeat split; reflexivity.
Qed.

(** *** save and load *)

(** C8, where the code departs from it.  [load] reads the attribute [gnn],
    which no trainer has: it raises before the file is opened and restores
    nothing. *)
Theorem load_raises_attribute_error (filepath : string) (self : GeneVector)
    (w : World) :
  load filepath (self, w) = ((self, w), Raise (AttributeError "gnn")).
Proof. reflexivity. Qed.

Lemma save_writes_state_dict (filepath : string) (self : GeneVector) (w : World) :
  save filepath (self, w)
  = ((self, {| files := <[filepath := BlobFile [("wi.weight", wi (model self));
                                                 ("wj.weight", wj (model self))]]>
                          (files w);
               stdout := stdout w |}), Ok tt).
Proof. reflexivity. Qed.

(** *** The two exports that end a run *)

Lemma save_both_files (self : GeneVector) (w : World) :
  exportable self ->
  let m := model self in
  let ids := id2gene (data (dataset self)) in
  save_both (self, w)
  = ((self,
      {| files :=
           <[str_replace (output_file_name self) ".vec" "2.vec"
               := TextFile (export_text m (wj m) ids)]>
             (<[output_file_name self := TextFile (export_text m (wi m) ids)]>
                (files w));
         stdout := stdout w |}), Ok tt).
Proof.
  intros [Hi Hj] m ids. unfold save_both.
  unfold bind at 1. cbn [get_self].
  unfold bind at 1. unfold in_world at 1.
  rewrite (save_embedding_text m ids (output_file_name self) 0 w) by exact Hi.
  unfold in_world.
  rewrite (save_embedding_text m ids _ 1) by exact Hj.
  reflexivity.
Qed.

(** C6. [train] with [epochs = 0] leaves the trainer as it was (no step of
    the optimizer, both tables unchanged), prints that it saves and writes
    the two files: the input-role table at the output path, then the
    output-role table at the derived path. *)
Theorem train_zero_epochs (self : GeneVector) (w : World)
    (threshold update_interval : pyval) (alpha beta : Q) :
  exportable self ->
  let m := model self in
  let ids := id2gene (data (dataset self)) in
  train 0 threshold update_interval alpha beta (self, w)
  = ((self,
      {| files :=
           <[str_replace (output_file_name self) ".vec" "2.vec"
               := TextFile (export_text m (wj m) ids)]>
             (<[output_file_name self := TextFile (export_text m (wi m) ids)]>
                (files w));
         stdout := stdout w ++
                   [bcolors.WARNING +:+ "Saving model..." +:+ bcolors.ENDC] |}),
     Ok tt).
Proof.
  intros H m ids. unfold train.
  change (Z.to_nat 0) with 0%nat. cbn [train_loop].
  erewrite bind_ok by reflexivity.
  now rewrite save_both_files.
Qed.

End Trainer.

Lemma construct_ignores_other_devices_witness :
  exists self, toy_trainer "genes.vec" "mps" false = Ok self
    /\ device self = "mps"
    /\ param_device (model self) = "cpu".
Proof.
  apply (@construct_ignores_other_devices toy_backend).
  discriminate.
Defined.

(** C6 on the small dataset: the two files hold the initial weights. *)
Lemma train_zero_epochs_witness :
  match toy_trainer "genes.vec" "cpu" false with
  | Ok self =>
      exists w, @train toy_backend 0 (PyFloat (1 # 100)) (PyInt 20) 0 0
                  (self, empty_world) = ((self, w), Ok tt)
        /\ files w !! "genes.vec"
           = Some (TextFile (@export_text toy_backend (model self) (wi (model self))
                               [(2, "C"); (0, "A"); (1, "B")]))
        /\ files w !! "genes2.vec"
           = Some (TextFile (@export_text toy_backend (model self) (wj (model self))
                               [(2, "C"); (0, "A"); (1, "B")]))
  | Raise _ => False
  end.
Proof.
  cbn [toy_trainer]. unfold GeneVector_init. cbn -[train export_text].
  eexists. split.
  - apply (@train_zero_epochs toy_backend).
    split; repeat (constructor; [simpl; lia|]); constructor.
  - cbn [files]. split.
    + rewrite lookup_insert_ne by discriminate. apply lookup_insert_eq.
    + apply lookup_insert_eq.
Defined.

(** ** Relations every step of a run respects *)

Section Respect.
Context {S : Type}.
Variable R : S -> S -> Prop.
Hypothesis R_refl : forall s, R s s.
Hypothesis R_trans : forall a b c, R a b -> R b c -> R a c.

Lemma respects_pure {A} (r : result A) : respects R (lift r).
Proof. intros s. apply R_refl. Qed.

Lemma respects_ret {A} (a : A) : respects R (ret a).
Proof. intros s. apply R_refl. Qed.

Lemma respects_raise {A} (e : exn) : respects R (@raise S A e).
Proof. intros s. apply R_refl. Qed.

Lemma respects_bind {A C} (c : Py S A) (k : A -> Py S C) :
  respects R c -> (forall a, respects R (k a)) -> respects R (bind c k).
Proof.
  intros Hc Hk s. unfold bind.
  specialize (Hc s). destruct (c s) as [s' [a|e]]; cbn [fst] in *.
  - eapply R_trans; [exact Hc | apply Hk].
  - exact Hc.
Qed.

Lemma respects_for_each {A} (l : list A) (body : A -> Py S unit) :
  (forall x, respects R (body x)) -> respects R (for_each l body).
Proof.
  intros H. induction l as [|x l IH]; cbn [for_each].
  - apply respects_ret.
  - apply respects_bind; [apply H | intros _; exact IH].
Qed.

End Respect.

Section RespectTrainer.
Context `{B : Backend}.
Variable R : St -> St -> Prop.
Hypothesis R_refl : forall st, R st st.
Hypothesis R_trans : forall a b c, R a b -> R b c -> R a c.

Lemma respects_get_self : respects R get_self.
Proof. intros [self w]. apply R_refl. Qed.

Hypothesis R_request : respects R request_batches.
Hypothesis R_batch : forall alpha beta b, respects R (train_batch alpha beta b).
Hypothesis R_mean : forall x, respects R (append_mean x).
Hypothesis R_incr : respects R incr_epoch.
Hypothesis R_print : forall line, respects R (in_world (print line)).
Hypothesis R_save : forall m ids file_name layer,
  respects R (in_world (save_embedding m ids file_name layer)).

Lemma respects_run_sweep alpha beta : respects R (run_sweep alpha beta).
Proof.
  apply respects_bind; [exact R_trans|exact R_request|].
  intros bs. apply respects_for_each; [exact R_refl|exact R_trans|]. apply R_batch.
Qed.

Lemma respects_log_epoch ui : respects R (log_epoch ui).
Proof.
  apply respects_bind; [exact R_trans|apply respects_get_self|]. intros self.
  apply respects_bind; [exact R_trans|apply respects_pure, R_refl|]. intros n.
  destruct (n =? 0); [apply respects_raise, R_refl|].
  destruct (epoch self mod n =? 0); [apply R_print | apply respects_ret, R_refl].
Qed.

Lemma respects_save_both : respects R save_both.
Proof.
  apply respects_bind; [exact R_trans|apply respects_get_self|]. intros self.
  apply respects_bind; [exact R_trans|apply R_save|]. intros _. apply R_save.
Qed.

Lemma respects_stop_or_continue th curr last :
  respects R (stop_or_continue th curr last).
Proof.
  unfold stop_or_continue. destruct (converged th curr last).
  - apply respects_bind; [exact R_trans|apply R_print|]. intros _.
    apply respects_bind; [exact R_trans|apply respects_save_both|]. intros _.
    apply respects_ret, R_refl.
  - apply respects_bind; [exact R_trans|apply R_incr|]. intros _. apply respects_ret, R_refl.
Qed.

Lemma respects_finish_epoch th ui last : respects R (finish_epoch th ui last).
Proof.
  apply respects_bind; [exact R_trans|apply respects_get_self|]. intros self.
  apply respects_bind; [exact R_trans|apply R_mean|]. intros _.
  apply respects_bind; [exact R_trans|apply respects_log_epoch|]. intros _.
  apply respects_stop_or_continue.
Qed.

Lemma respects_train_epoch th ui alpha beta last :
  respects R (train_epoch th ui alpha beta last).
Proof.
  apply respects_bind; [exact R_trans|apply respects_run_sweep|]. intros _.
  apply respects_finish_epoch.
Qed.

Lemma respects_train_loop n th ui alpha beta last :
  respects R (train_loop n th ui alpha beta last).
Proof.
  revert last. induction n as [|n IH]; intros last; cbn [train_loop].
  - apply respects_bind; [exact R_trans|apply R_print|]. intros _. apply respects_save_both.
  - apply respects_bind; [exact R_trans|apply respects_train_epoch|].
    intros [|curr]; [apply respects_ret, R_refl | apply IH].
Qed.

Lemma respects_train epochs th ui alpha beta :
  respects R (train epochs th ui alpha beta).
Proof. apply respects_train_loop. Qed.

End RespectTrainer.

(** ** The invariant, the console and the frame of a sweep *)

Section Run.
Context `{B : Backend}.

Lemma in_world_self {A} (c : Py World A) (self : GeneVector) (w : World) :
  fst (fst (in_world c (self, w))) = self.
Proof. unfold in_world. now destruct (c w). Qed.

Lemma in_world_world {A} (c : Py World A) (self : GeneVector) (w : World) :
  snd (fst (in_world c (self, w))) = fst (c w).
Proof. unfold in_world. now destruct (c w). Qed.

Lemma train_batch_cases (alpha beta : Q) (b : batch) (self : GeneVector) (w : World) :
  (exists loss, batch_loss self alpha beta b = Ok loss
     /\ train_batch alpha beta b (self, w)
        = ((apply_step self alpha beta b loss, w), Ok tt))
  \/ (exists e, train_batch alpha beta b (self, w) = ((self, w), Raise e)).
Proof.
  unfold train_batch. destruct (batch_loss self alpha beta b) as [loss|e].
  - left. now exists loss.
  - right. now exists e.
Qed.

Lemma apply_step_invariant (self : GeneVector) alpha beta b loss :
  invariant self -> invariant (apply_step self alpha beta b loss).
Proof.
  unfold invariant, apply_step.
  destruct (backward_step _ _ _ _ _ _ _) as [[acc' ei] ej]. cbn.
  intros (He & Hi & Hj & Hv & Hl). repeat split; try tauto.
  rewrite length_app, Hl. cbn. lia.
Qed.

Lemma apply_step_counts (self : GeneVector) alpha beta b loss :
  let self' := apply_step self alpha beta b loss in
  loss_values self' = loss_values self ++ [loss]
  /\ steps (optimizer self') = S (steps (optimizer self)).
Proof.
  unfold apply_step.
  destruct (backward_step _ _ _ _ _ _ _) as [[acc' ei] ej]. cbn. now split.
Qed.

Lemma apply_step_frame (self : GeneVector) alpha beta b loss :
  let self' := apply_step self alpha beta b loss in
  dataset self' = dataset self /\ epoch self' = epoch self
  /\ output_file_name self' = output_file_name self
  /\ mean_loss_values self' = mean_loss_values self.
Proof.
  unfold apply_step.
  destruct (backward_step _ _ _ _ _ _ _) as [[acc' ei] ej]. cbn. now repeat split.
Qed.

(** *** The invariant *)

Lemma keeps_invariant_refl (st : St) : keeps_invariant st st.
Proof. intros H. exact H. Qed.

Lemma keeps_invariant_trans (a b c : St) :
  keeps_invariant a b -> keeps_invariant b c -> keeps_invariant a c.
Proof. unfold keeps_invariant. auto. Qed.

Lemma keeps_invariant_in_world {A} (c : Py World A) :
  respects keeps_invariant (in_world c).
Proof. intros [self w] H. now rewrite in_world_self. Qed.

Lemma keeps_invariant_request : respects keeps_invariant request_batches.
Proof. intros [self w] H. exact H. Qed.

Lemma keeps_invariant_batch alpha beta b :
  respects keeps_invariant (train_batch alpha beta b).
Proof.
  intros [self w] H.
  destruct (train_batch_cases alpha beta b self w) as [(loss & _ & ->)|(e & ->)].
  - now apply apply_step_invariant.
  - exact H.
Qed.

Lemma keeps_invariant_mean x : respects keeps_invariant (append_mean x).
Proof. intros [self w] H. exact H. Qed.

Lemma keeps_invariant_incr : respects keeps_invariant incr_epoch.
Proof. intros [self w] H. exact H. Qed.

Local Ltac invariant_step :=
  first [ exact keeps_invariant_refl | exact keeps_invariant_trans
        | exact keeps_invariant_request | exact keeps_invariant_batch
        | exact keeps_invariant_mean | exact keeps_invariant_incr
        | intros; apply keeps_invariant_in_world ].

Lemma keeps_invariant_train_epoch th ui alpha beta last :
  respects keeps_invariant (train_epoch th ui alpha beta last).
Proof.
  apply respects_train_epoch; invariant_step.
Qed.

Lemma keeps_invariant_train epochs th ui alpha beta :
  respects keeps_invariant (train epochs th ui alpha beta).
Proof.
  apply respects_train; invariant_step.
Qed.

Lemma init_invariant ds out dim bs gain c dev ortho self :
  vocab_ok (create_inputs_outputs c ds) ->
  GeneVector_init ds out dim bs gain c dev ortho = Ok self ->
  invariant self.
Proof.
  intros Hv. unfold GeneVector_init.
  destruct (String.eqb dev "cuda" && negb cuda_is_available); [discriminate|].
  intros [= <-]. unfold invariant.
  destruct (String.eqb dev "cuda"); cbn;
    (split; [reflexivity|]); repeat split; exact Hv.
Qed.

Lemma invariant_exportable (self : GeneVector) :
  invariant self -> exportable self.
Proof.
  intros (_ & _ & _ & (Hi & Hj) & _). unfold vocabulary, rows_of in *.
  apply Forall_app in Hi as [_ Hi]. apply Forall_app in Hj as [_ Hj].
  now split.
Qed.

(** The loss trace grows by one entry per batch of a sweep that completes. *)
Lemma for_each_batches_count alpha beta (bs : list batch) (st st' : St) :
  for_each bs (train_batch alpha beta) st = (st', Ok tt) ->
  length (loss_values (fst st')) = (length (loss_values (fst st)) + length bs)%nat.
Proof.
  revert st. induction bs as [|b bs IH]; intros [self w]; cbn [for_each].
  - intros [= <-]. cbn. lia.
  - unfold bind.
    destruct (train_batch_cases alpha beta b self w) as [(loss & _ & ->)|(e & ->)];
      [|discriminate].
    intros H. rewrite (IH _ H). cbn [fst length].
    destruct (apply_step_counts self alpha beta b loss) as [-> _].
    rewrite length_app. cbn. lia.
Qed.

(** C9. Every trainer a program can hold satisfies the invariant: the two
    tables have the shape (vocabulary size, embedding dimension), every
    vocabulary index of the dataset is a row of both, and the loss trace has
    one entry per step of the optimizer, that is, per batch processed since
    construction.  A batch that is processed adds one entry and one step and
    keeps the invariant; a batch that raises changes nothing; a sweep that
    completes adds as many entries as the dataset yields batches. *)
Theorem training_invariant (self : GeneVector) :
  reachable self ->
  invariant self
  /\ (forall w alpha beta b,
       match train_batch alpha beta b (self, w) with
       | ((self', _), Ok _) =>
           invariant self'
           /\ length (loss_values self') = S (length (loss_values self))
           /\ steps (optimizer self') = S (steps (optimizer self))
       | ((self', _), Raise _) => self' = self
       end)
  /\ (forall w alpha beta self1 w1,
       run_sweep alpha beta (self, w) = ((self1, w1), Ok tt) ->
       length (loss_values self1)
       = (length (loss_values self)
          + length (get_batches (dataset self) (batch_size self)
                      (sweeps (dataset self))))%nat).
Proof.
  intros Hr.
  assert (invariant self) as Hinv.
  { induction Hr as [ds out dim bs gain c dev ortho self Hv Hinit
                    | self w self' w' r _ IH Hstep
                    | self w alpha beta b self' w' r _ IH Hstep
                    | self w th ui alpha beta last self' w' r _ IH Hstep
                    | self w epochs th ui alpha beta self' w' r _ IH Hstep
                    | self w filepath self' w' r _ IH Hstep
                    | self w filepath self' w' r _ IH Hstep].
    - eapply init_invariant; eassumption.
    - pose proof (keeps_invariant_request (self, w) IH) as H.
      now rewrite Hstep in H.
    - pose proof (keeps_invariant_batch alpha beta b (self, w) IH) as H.
      now rewrite Hstep in H.
    - pose proof (keeps_invariant_train_epoch th ui alpha beta last (self, w) IH) as H.
      now rewrite Hstep in H.
    - pose proof (keeps_invariant_train epochs th ui alpha beta (self, w) IH) as H.
      now rewrite Hstep in H.
    - cbn in Hstep. now injection Hstep as <- _ _.
    - cbn in Hstep. now injection Hstep as <- _ _. }
  split; [exact Hinv|]. split.
  - intros w alpha beta b.
    destruct (train_batch_cases alpha beta b self w) as [(loss & _ & ->)|(e & ->)];
      [|reflexivity].
    split; [now apply apply_step_invariant|].
    destruct (apply_step_counts self alpha beta b loss) as [-> ->].
    rewrite length_app. cbn. split; [lia|reflexivity].
  - intros w alpha beta self1 w1 Hs. unfold run_sweep in Hs.
    rewrite (bind_ok _ _ _ (with_dataset self (next_sweep (dataset self)), w)
               (get_batches (dataset self) (batch_size self) (sweeps (dataset self))))
      in Hs by reflexivity.
    apply for_each_batches_count in Hs. exact Hs.
Qed.

(** *** The console *)

Lemma stdout_grows_refl (st : St) : stdout_grows st st.
Proof. exists []. now rewrite app_nil_r. Qed.

Lemma stdout_grows_trans (a b c : St) :
  stdout_grows a b -> stdout_grows b c -> stdout_grows a c.
Proof.
  intros [r1 H1] [r2 H2]. exists (r1 ++ r2).
  now rewrite H2, H1, app_assoc.
Qed.

Lemma save_embedding_stdout m ids file_name layer :
  respects (fun w w' : World => stdout w' = stdout w)
           (save_embedding m ids file_name layer).
Proof.
  assert (forall s, respects (fun w w' : World => stdout w' = stdout w)
                             (write file_name s)) as Hw by (intros s w; reflexivity).
  unfold save_embedding.
  apply respects_bind; [congruence | intros w; reflexivity |]. intros _.
  apply respects_bind; [congruence | apply Hw |]. intros _.
  apply respects_for_each; [reflexivity | congruence |].
  intros [wid name].
  apply respects_bind; [congruence | intros w; reflexivity |]. intros r. apply Hw.
Qed.

Lemma stdout_grows_save m ids file_name layer :
  respects stdout_grows (in_world (save_embedding m ids file_name layer)).
Proof.
  intros [self w]. exists []. rewrite in_world_world, app_nil_r.
  apply save_embedding_stdout.
Qed.

Lemma stdout_grows_print line : respects stdout_grows (in_world (print line)).
Proof. intros [self w]. now exists [line]. Qed.

Lemma stdout_grows_batch alpha beta b :
  respects stdout_grows (train_batch alpha beta b).
Proof.
  intros [self w].
  destruct (train_batch_cases alpha beta b self w) as [(loss & _ & ->)|(e & ->)];
    exists []; cbn; now rewrite app_nil_r.
Qed.

Local Ltac stdout_step :=
  first [ exact stdout_grows_refl | exact stdout_grows_trans
        | exact stdout_grows_print | exact stdout_grows_save
        | exact stdout_grows_batch
        | intros; intros [? ?]; exists []; cbn; now rewrite app_nil_r ].

Lemma stdout_grows_stop_or_continue th curr last :
  respects stdout_grows (stop_or_continue th curr last).
Proof.
  apply respects_stop_or_continue; stdout_step.
Qed.

Lemma stdout_grows_train_loop n th ui alpha beta last :
  respects stdout_grows (train_loop n th ui alpha beta last).
Proof.
  apply respects_train_loop; stdout_step.
Qed.

(** *** What a sweep leaves alone *)

Lemma batch_frame_refl (st : St) : batch_frame st st.
Proof. now repeat split. Qed.

Lemma batch_frame_trans (a b c : St) :
  batch_frame a b -> batch_frame b c -> batch_frame a c.
Proof.
  unfold batch_frame. intros (? & ? & ? & ? & ?) (? & ? & ? & ? & ?).
  repeat split; congruence.
Qed.

Lemma batch_frame_batch alpha beta b :
  respects batch_frame (train_batch alpha beta b).
Proof.
  intros [self w].
  destruct (train_batch_cases alpha beta b self w) as [(loss & _ & ->)|(e & ->)];
    [|apply batch_frame_refl].
  destruct (apply_step_frame self alpha beta b loss) as (? & ? & ? & ?).
  now repeat split.
Qed.

(** A sweep requests the batches once, and changes neither the epoch
    counter, nor the output path, nor the world. *)
Lemma run_sweep_frame alpha beta (self self1 : GeneVector) (w w1 : World) r :
  run_sweep alpha beta (self, w) = ((self1, w1), r) ->
  dataset self1 = next_sweep (dataset self)
  /\ epoch self1 = epoch self
  /\ output_file_name self1 = output_file_name self
  /\ w1 = w.
Proof.
  unfold run_sweep. intros H.
  rewrite (bind_ok _ _ _ (with_dataset self (next_sweep (dataset self)), w)
             (get_batches (dataset self) (batch_size self) (sweeps (dataset self))))
    in H by reflexivity.
  pose proof (respects_for_each batch_frame batch_frame_refl batch_frame_trans
                (get_batches (dataset self) (batch_size self) (sweeps (dataset self)))
                (train_batch alpha beta) (batch_frame_batch alpha beta)
                (with_dataset self (next_sweep (dataset self)), w)) as F.
  rewrite H in F. destruct F as (Hd & He & Ho & _ & Hw). cbn in *.
  now repeat split.
Qed.

End Run.

(** ** Convergence and logging *)

Lemma bind_bind {S A C D} (c : Py S A) (f : A -> Py S C) (g : C -> Py S D) (s : S) :
  bind (bind c f) g s = bind c (fun x => bind (f x) g) s.
Proof. unfold bind. now destruct (c s) as [s' [a|e]]. Qed.

Lemma converged_float (t c l : Q) :
  (Qabs (c - l) < t)%Q -> converged (PyFloat t) (Some c) (Some l) = true.
Proof.
  intros H. unfold converged, Qltb. apply negb_true_iff.
  destruct (Qle_bool t (Qabs (c - l))) eqn:E; [|reflexivity].
  apply Qle_bool_iff in E. exfalso. now apply (Qlt_not_le _ _ H).
Qed.

(** Only a float threshold is compared with the change of the loss. *)
Lemma converged_not_float (th : pyval) (curr last : option Q) :
  (forall t, th <> PyFloat t) -> converged th curr last = false.
Proof. destruct th as [| z | t]; intros H; [reflexivity..|]. now destruct (H t). Qed.

Section Convergence.
Context `{B : Backend}.

Lemma log_epoch_run (ui : pyval) (k : Z) (self : GeneVector) (w : World) :
  py_int ui = Ok k -> k <> 0 ->
  log_epoch ui (self, w)
  = ((self, if epoch self mod k =? 0
            then {| files := files w; stdout := stdout w ++ [epoch_line self] |}
            else w), Ok tt).
Proof.
  intros Hk Hnz. unfold log_epoch.
  rewrite (bind_ok _ _ _ (self, w) self) by reflexivity.
  rewrite (bind_ok _ _ _ (self, w) k) by (unfold lift; now rewrite Hk).
  apply Z.eqb_neq in Hnz. rewrite Hnz.
  now destruct (epoch self mod k =? 0).
Qed.

Lemma stop_run (th : pyval) (curr last : option Q) (self : GeneVector) (w : World) :
  converged th curr last = true ->
  exportable self ->
  let m := model self in
  let ids := id2gene (data (dataset self)) in
  stop_or_continue th curr last (self, w)
  = ((self,
      {| files :=
           <[str_replace (output_file_name self) ".vec" "2.vec"
               := TextFile (export_text m (wj m) ids)]>
             (<[output_file_name self := TextFile (export_text m (wi m) ids)]>
                (files w));
         stdout := stdout w ++
                   [bcolors.OKCYAN +:+ "Training complete!" +:+ bcolors.ENDC] |}),
     Ok Return).
Proof.
  intros Hc He m ids. unfold stop_or_continue. rewrite Hc.
  erewrite bind_ok by reflexivity.
  erewrite bind_ok by (now apply save_both_files).
  reflexivity.
Qed.

(** The body of the loop over the epochs, once its sweep has run. *)
Lemma train_epoch_after_sweep th ui alpha beta last n
    (self self1 : GeneVector) (w w1 : World) (k : Z) :
  run_sweep alpha beta (self, w) = ((self1, w1), Ok tt) ->
  py_int ui = Ok k -> k <> 0 ->
  let curr := numpy_mean (last_n 10 (loss_values self1)) in
  let self2 := add_mean self1 curr in
  let w2 := if epoch self2 mod k =? 0
            then {| files := files w1; stdout := stdout w1 ++ [epoch_line self2] |}
            else w1 in
  train_loop (S n) th ui alpha beta last (self, w)
  = bind (stop_or_continue th curr last)
         (fun r => match r with
                   | Return => ret tt
                   | Next curr_loss => train_loop n th ui alpha beta curr_loss
                   end) (self2, w2).
Proof.
  intros Hs Hk Hnz curr self2 w2. cbn [train_loop]. unfold train_epoch.
  rewrite bind_bind, (bind_ok _ _ _ _ _ Hs).
  unfold finish_epoch.
  rewrite bind_bind, (bind_ok _ _ _ (self1, w1) self1) by reflexivity.
  rewrite bind_bind, (bind_ok _ _ _ (self2, w1) tt) by reflexivity.
  rewrite bind_bind, (bind_ok _ _ _ _ _ (log_epoch_run ui k self2 w1 Hk Hnz)).
  reflexivity.
Qed.

(** An iteration of the loop over the epochs whose mean is within the float
    threshold of the previous one: the exports are made and nothing of the
    iterations left is run. *)
Lemma settled_epoch_ends_train (n : nat) (t : Q) (ui : pyval)
    (alpha beta l : Q) (self self1 : GeneVector) (w w1 : World) (k : Z) (c : Q) :
  run_sweep alpha beta (self, w) = ((self1, w1), Ok tt) ->
  py_int ui = Ok k -> k <> 0 ->
  numpy_mean (last_n 10 (loss_values self1)) = Some c ->
  (Qabs (c - l) < t)%Q ->
  exportable self1 ->
  let self2 := add_mean self1 (Some c) in
  let m := model self1 in
  let ids := id2gene (data (dataset self1)) in
  exists w2,
    train_loop (S n) (PyFloat t) ui alpha beta (Some l) (self, w)
    = ((self2, w2), Ok tt)
    /\ files w2
       = <[str_replace (output_file_name self1) ".vec" "2.vec"
             := TextFile (export_text m (wj m) ids)]>
           (<[output_file_name self1 := TextFile (export_text m (wi m) ids)]>
              (files w))
    /\ sweeps (dataset self2) = S (sweeps (dataset self))
    /\ optimizer self2 = optimizer self1
    /\ model self2 = model self1
    /\ (l = 0%Q -> forall epochs, Z.to_nat epochs = S n ->
        train epochs (PyFloat t) ui alpha beta (self, w) = ((self2, w2), Ok tt)).
Proof.
  intros Hs Hk Hnz Hc Hlt He self2 m ids.
  destruct (run_sweep_frame alpha beta self self1 w w1 _ Hs) as (Hd & _ & _ & ->).
  pose proof (train_epoch_after_sweep (PyFloat t) ui alpha beta (Some l) n
                self self1 w w k Hs Hk Hnz) as Hrun.
  cbv zeta in Hrun. rewrite Hc in Hrun. fold self2 in Hrun.
  erewrite bind_ok in Hrun
    by (apply stop_run; [now apply converged_float | exact He]).
  eexists. split; [exact Hrun|]. split; [|split; [|split; [|split]]].
  - cbn [files]. now destruct (epoch self2 mod k =? 0).
  - cbn. now rewrite Hd.
  - reflexivity.
  - reflexivity.
  - intros -> epochs Hn. unfold train. rewrite Hn. exact Hrun.
Qed.

(** An int threshold is never compared: the epoch goes on to the next. *)
Lemma int_threshold_is_ignored (z : Z) (curr last : option Q)
    (self : GeneVector) (w : World) :
  stop_or_continue (PyInt z) curr last (self, w)
  = ((bump_epoch self, w), Ok (Next curr)).
Proof. reflexivity. Qed.

(** C10. On a trainer that has just been constructed, a call of [train] for
    at least one epoch with a positive log interval prints, once the first
    sweep has completed, the diagnostic line of epoch 0 before anything else:
    the epoch counter is 0 after construction and through the sweep, and it
    is incremented only after the test [self.epoch % int(update_interval)]. *)
Theorem first_epoch_is_logged ds out dim bs gain c dev ortho
    (self self1 : GeneVector) (w w1 : World) (epochs : Z) (th ui : pyval)
    (k : Z) (alpha beta : Q) :
  GeneVector_init ds out dim bs gain c dev ortho = Ok self ->
  0 < epochs ->
  py_int ui = Ok k -> 0 < k ->
  run_sweep alpha beta (self, w) = ((self1, w1), Ok tt) ->
  exists rest,
    stdout (snd (fst (train epochs th ui alpha beta (self, w))))
    = stdout w ++
      [(bcolors.OKGREEN +:+ "**** Epoch" +:+ bcolors.ENDC) +:+ " " +:+
       "0" +:+ " " +:+
       (bcolors.HEADER +:+ tab +:+ "Loss:" +:+ bcolors.ENDC) +:+ " " +:+
       str_round5 (numpy_mean (last_n 30 (loss_values self1)))] ++ rest.
Proof.
  intros Hinit Hep Hk Hpos Hs.
  assert (epoch self = 0) as He0.
  { revert Hinit. unfold GeneVector_init.
    destruct (String.eqb dev "cuda" && negb cuda_is_available); [discriminate|].
    now intros [= <-]. }
  destruct (run_sweep_frame alpha beta self self1 w w1 _ Hs) as (_ & He1 & _ & ->).
  destruct (Z.to_nat epochs) as [|n] eqn:Hn; [lia|].
  unfold train. rewrite Hn.
  rewrite (train_epoch_after_sweep th ui alpha beta (Some 0%Q) n
             self self1 w w k Hs Hk) by lia.
  cbn [epoch add_mean]. rewrite He1, He0, Z.mod_0_l by lia.
  cbn [Z.eqb].
  match goal with
  | |- context [bind ?c ?f ?st] =>
      assert (stdout_grows st (fst (bind c f st))) as [rest Hrest]
  end.
  { apply respects_bind; [exact stdout_grows_trans | |].
    - apply stdout_grows_stop_or_continue.
    - intros [|curr]; [apply respects_ret, stdout_grows_refl
                      | apply stdout_grows_train_loop]. }
  exists rest. rewrite Hrest. cbn [snd stdout].
  unfold epoch_line. cbn [epoch loss_values add_mean]. rewrite He1, He0.
  now rewrite <- app_assoc.
Qed.

End Convergence.

(** ** The theorems on the small dataset *)

Lemma toy_vocab_ok : @vocab_ok toy_dataset.
Proof. repeat (constructor; [simpl; lia|]); constructor. Qed.

(** C9 after two epochs of one batch each. *)
Lemma training_invariant_witness :
  match toy_trainer "genes.vec" "cpu" false with
  | Ok self =>
      let self' := fst (fst (@train toy_backend 2 PyNone (PyInt 20) 0 0
                               (self, empty_world))) in
      @invariant toy_backend self'
      /\ length (loss_values self') = 2%nat
      /\ steps (optimizer self') = 2%nat
  | Raise _ => False
  end.
Proof.
  destruct (toy_trainer "genes.vec" "cpu" false) as [self|e] eqn:E;
    [|discriminate E].
  intros self'. split.
  - apply (@training_invariant toy_backend).
    apply (@reach_train toy_backend self empty_world 2 PyNone (PyInt 20) 0 0 self'
             (snd (fst (@train toy_backend 2 PyNone (PyInt 20) 0 0
                          (self, empty_world))))
             (snd (@train toy_backend 2 PyNone (PyInt 20) 0 0 (self, empty_world)))).
    + eapply (@reach_init toy_backend); [|exact E]. exact toy_vocab_ok.
    + subst self'.
      now destruct (@train toy_backend 2 PyNone (PyInt 20) 0 0 (self, empty_world))
        as [[? ?] ?].
  - revert E. unfold toy_trainer, GeneVector_init. cbn -[train].
    intros [= <-]. vm_compute. split; reflexivity.
Defined.

(** C10 with an interval of 7 and three epochs. *)
Lemma first_epoch_is_logged_witness :
  match toy_trainer "genes.vec" "cpu" false with
  | Ok self =>
      exists line rest,
        stdout (snd (fst (@train toy_backend 3 PyNone (PyInt 7) 0 0
                            (self, empty_world))))
        = [] ++ [line] ++ rest
        /\ String.prefix (bcolors.OKGREEN +:+ "**** Epoch" +:+ bcolors.ENDC +:+ " 0 ")
                         line = true
  | Raise _ => False
  end.
Proof.
  destruct (toy_trainer "genes.vec" "cpu" false) as [self|e] eqn:E;
    [|discriminate E].
  set (r := @run_sweep toy_backend 0 0 (self, empty_world)).
  destruct (@first_epoch_is_logged toy_backend toy_dataset "genes.vec" 2 PyNone
              1 100 "cpu" false self (fst (fst r)) empty_world (snd (fst r))
              3 PyNone (PyInt 7) 7 0 0)
    as [rest Hrest].
  - exact E.
  - lia.
  - reflexivity.
  - lia.
  - revert E. unfold toy_trainer, GeneVector_init. cbn -[run_sweep].
    intros [= <-]. vm_compute. reflexivity.
  - eexists _, rest. split; [exact Hrest|]. reflexivity.
Defined.

(** * Further properties *)

(** ** More on the score *)

Lemma embedding_index_error (w : Tensor) (l : list Z) :
  ~ rows_of (shape0 w) l -> embedding w l = Raise IndexError.
Proof.
  unfold embedding, rows_of.
  induction l as [|i l IH]; intros H; [destruct H; constructor|].
  cbn [mapM].
  destruct ((0 <=? i) && (i <? Z.of_nat (shape0 w))) eqn:E; [|reflexivity].
  cbn [rbind]. rewrite IH; [reflexivity|].
  intros Hl. apply H. constructor; [|exact Hl].
  apply andb_true_iff in E as [E1 E2].
  apply Z.leb_le in E1. apply Z.ltb_lt in E2. lia.
Qed.

(** X1. An index outside [0, vocabulary_size) in either sequence makes
    [forward] raise IndexError, whatever the other sequence is. *)
Theorem forward_index_out_of_range (m : GeneVectorModel)
    (i_indices j_indices : list Z) :
  ~ rows_of (shape0 (wi m)) i_indices
  \/ (rows_of (shape0 (wi m)) i_indices /\ ~ rows_of (shape0 (wj m)) j_indices) ->
  forward m i_indices j_indices = Raise IndexError.
Proof.
  unfold forward. intros [Hi|[Hi Hj]].
  - now rewrite embedding_index_error.
  - rewrite embedding_rows by assumption. cbn [rbind].
    now rewrite embedding_index_error.
Qed.

Lemma forward_index_out_of_range_witness :
  let m := @GeneVectorModel_init toy_backend 3 2 1 false in
  forward m [0; 3] [1; 2] = Raise IndexError
  /\ forward m [0; 1] [-1; 2] = Raise IndexError.
Proof.
  intros m. split.
  - apply forward_index_out_of_range. left.
    intros H. apply Forall_cons in H as [_ H]. apply Forall_cons in H as [H _].
    simpl in H. lia.
  - apply forward_index_out_of_range. right. split.
    + repeat (constructor; [simpl; lia|]); constructor.
    + intros H. apply Forall_cons in H as [H _]. simpl in H. lia.
Defined.

Lemma forward_value (m : GeneVectorModel) (i_indices j_indices : list Z) :
  shape_ok m ->
  length i_indices = length j_indices ->
  rows_of (num_embeddings m) i_indices ->
  rows_of (num_embeddings m) j_indices ->
  forward m i_indices j_indices = Ok (zip_with (dot m) i_indices j_indices).
Proof.
  intros (Hi0 & Hi1 & Hj0 & Hj1) Hlen Hi Hj. unfold forward.
  rewrite embedding_rows by now rewrite Hi0.
  rewrite embedding_rows by now rewrite Hj0.
  simpl. unfold broadcast.
  rewrite !length_map, Hlen, Nat.eqb_refl. simpl.
  now rewrite scores_zip.
Qed.

Lemma broadcast_single_l {A} (op : A -> A -> A) (x : A) (b : list A) :
  length b <> 1%nat -> broadcast op [x] b = Ok (map (op x) b).
Proof.
  intros H. unfold broadcast. cbn [length].
  destruct (Nat.eqb_spec 1 (length b)) as [E|_]; [congruence|reflexivity].
Qed.

Lemma broadcast_single_r {A} (op : A -> A -> A) (y : A) (a : list A) :
  length a <> 1%nat -> broadcast op a [y] = Ok (map (fun x => op x y) a).
Proof.
  intros H. unfold broadcast. cbn [length].
  destruct (Nat.eqb_spec (length a) 1) as [E|_]; [congruence|].
  destruct a as [|x [|x' a]]; reflexivity.
Qed.

(** X2. One index against a sequence is broadcast: [forward] scores the one
    input-role row against every output-role row, and likewise one
    output-role row against every input-role row. *)
Theorem forward_broadcasts_single_index (m : GeneVectorModel) (i : Z)
    (indices : list Z) :
  shape_ok m ->
  0 <= i < Z.of_nat (num_embeddings m) ->
  rows_of (num_embeddings m) indices ->
  forward m [i] indices = Ok (map (dot m i) indices)
  /\ forward m indices [i] = Ok (map (fun j => dot m j i) indices).
Proof.
  intros Hs Hi Hl.
  assert (rows_of (num_embeddings m) [i]) as Hi' by (constructor; [exact Hi|constructor]).
  destruct (Nat.eq_dec (length indices) 1%nat) as [E|E].
  { destruct indices as [|j [|j' l]]; try discriminate E.
    split; now rewrite forward_value. }
  destruct Hs as (Hi0 & Hi1 & Hj0 & Hj1). unfold forward. split.
  - rewrite embedding_rows by now rewrite Hi0.
    rewrite embedding_rows by now rewrite Hj0.
    cbn [rbind map].
    rewrite broadcast_single_l by now rewrite length_map.
    cbn [rbind]. f_equal. rewrite !map_map.
    apply map_ext. intros a. now apply row_dot.
  - rewrite embedding_rows by now rewrite Hi0.
    rewrite embedding_rows by now rewrite Hj0.
    cbn [rbind map].
    rewrite broadcast_single_r by now rewrite length_map.
    cbn [rbind]. f_equal. rewrite !map_map.
    apply map_ext. intros a. now apply row_dot.
Qed.

Lemma forward_broadcasts_single_index_witness :
  let m := @GeneVectorModel_init toy_backend 3 2 1 false in
  forward m [2] [0; 1; 2] = Ok (map (dot m 2) [0; 1; 2])
  /\ forward m [0; 1; 2] [2] = Ok (map (fun j => dot m j 2) [0; 1; 2]).
Proof.
  intros m. apply forward_broadcasts_single_index.
  - repeat split.
  - simpl. lia.
  - repeat (constructor; [simpl; lia|]); constructor.
Defined.

(** X3. Two sequences of valid indices whose lengths differ, neither being
    one, make [forward] raise RuntimeError. *)
Theorem forward_length_mismatch (m : GeneVectorModel)
    (i_indices j_indices : list Z) :
  rows_of (shape0 (wi m)) i_indices ->
  rows_of (shape0 (wj m)) j_indices ->
  length i_indices <> length j_indices ->
  length i_indices <> 1%nat ->
  length j_indices <> 1%nat ->
  forward m i_indices j_indices = Raise RuntimeError.
Proof.
  intros Hi Hj Hne H1 H2. unfold forward.
  rewrite !embedding_rows by assumption. cbn [rbind]. unfold broadcast.
  rewrite !length_map.
  apply Nat.eqb_neq in Hne. rewrite Hne.
  destruct i_indices as [|a [|a' l]], j_indices as [|b [|b' l']];
    cbn in *; try reflexivity; congruence.
Qed.

Lemma forward_length_mismatch_witness :
  let m := @GeneVectorModel_init toy_backend 3 2 1 false in
  forward m [0; 1] [0; 1; 2] = Raise RuntimeError.
Proof.
  intros m. apply forward_length_mismatch;
    try (repeat (constructor; [simpl; lia|]); constructor);
    simpl; lia.
Defined.

Lemma Qmult_comm_eq (x y : Q) : (x * y)%Q = (y * x)%Q.
Proof.
  unfold Qmult. f_equal; [apply Z.mul_comm | apply Pos.mul_comm].
Qed.

Lemma zip_with_swap {A C} (f : A -> A -> C) (g : A -> A -> C) (l1 l2 : list A) :
  (forall a b, f a b = g b a) -> zip_with f l1 l2 = zip_with g l2 l1.
Proof.
  intros H. revert l2. induction l1 as [|a l1 IH]; intros [|b l2];
    cbn; try reflexivity.
  now rewrite H, IH.
Qed.

(** X4. When the two tables hold the same entries, the score does not depend
    on which sequence plays the input role. *)
Theorem forward_symmetric_on_equal_tables (m : GeneVectorModel)
    (i_indices j_indices : list Z) :
  shape_ok m ->
  (forall r c, entry (wi m) r c = entry (wj m) r c) ->
  length i_indices = length j_indices ->
  rows_of (num_embeddings m) i_indices ->
  rows_of (num_embeddings m) j_indices ->
  forward m i_indices j_indices = forward m j_indices i_indices.
Proof.
  intros Hs Heq Hlen Hi Hj.
  rewrite !forward_value by (assumption || now symmetry).
  f_equal. apply zip_with_swap. intros a b. unfold dot, Qsum_upto.
  f_equal. apply map_ext. intros k. now rewrite !Heq, Qmult_comm_eq.
Qed.

Lemma forward_symmetric_on_equal_tables_witness :
  let m := {| num_embeddings := 3; embedding_dim := 2;
              wi := {| shape0 := 3; shape1 := 2;
                       entry := fun r c => inject_Z (Z.of_nat (r + 3 * c)) |};
              wj := {| shape0 := 3; shape1 := 2;
                       entry := fun r c => inject_Z (Z.of_nat (r + 3 * c)) |};
              param_device := "cpu"; training := true |} in
  forward m [0; 2] [1; 0] = forward m [1; 0] [0; 2].
Proof.
  intros m. apply forward_symmetric_on_equal_tables.
  - repeat split.
  - reflexivity.
  - reflexivity.
  - repeat (constructor; [simpl; lia|]); constructor.
  - repeat (constructor; [simpl; lia|]); constructor.
Defined.

(** ** More on the exported file *)

Lemma for_each_app {S A} (l1 l2 : list A) (body : A -> Py S unit) (s : S) :
  for_each (l1 ++ l2) body s
  = bind (for_each l1 body) (fun _ => for_each l2 body) s.
Proof.
  revert s. induction l1 as [|x l1 IH]; intros s; [reflexivity|].
  cbn [app for_each]. rewrite bind_bind.
  destruct (body x s) as [s' [[]|e]] eqn:E.
  - rewrite !(bind_ok _ _ _ _ _ E). apply IH.
  - now rewrite !(bind_raise _ _ _ _ _ E).
Qed.

Section ExportedFileMore.
Context `{B : Backend}.

(** X5. The header announces the size of the mapping, whatever the number of
    rows of the table: over a mapping of [n] entries whose keys are rows,
    the file has [n + 1] lines and its first line is "<n> <embedding_dim>";
    over the empty mapping it is the header alone. *)
Theorem save_embedding_header_counts_mapping (m : GeneVectorModel)
    (id2word : list (Z * string)) (file_name : string) (layer : Z) (w : World) :
  let tbl := if layer =? 0 then wi m else wj m in
  rows_of (shape0 tbl) (map fst id2word) ->
  (forall q, nl_free (str_float q) = true) ->
  Forall (fun e => nl_free (snd e) = true) id2word ->
  exists text,
    save_embedding m id2word file_name layer w
    = ({| files := <[file_name := TextFile text]> (files w);
          stdout := stdout w |}, Ok tt)
    /\ length (str_lines text) = S (length id2word)
    /\ str_lines text !! 0%nat
       = Some (str_nat (length id2word) +:+ " " +:+ str_nat (embedding_dim m))
    /\ (id2word = [] ->
        text = str_nat 0 +:+ " " +:+ str_nat (embedding_dim m) +:+ nl).
Proof.
  intros tbl Hkeys Hf Hn.
  exists (export_text m tbl id2word). split.
  { now apply save_embedding_text. }
  unfold export_text. rewrite str_lines_text by now apply export_lines_nl_free.
  unfold export_lines. split; [|split].
  - cbn [length]. now rewrite length_map.
  - reflexivity.
  - intros ->. cbn. now rewrite !str_app_assoc, str_app_nil_r.
Qed.

Lemma numpy_getitem_index_error (tbl : Tensor) (wid : Z) :
  ~ (- Z.of_nat (shape0 tbl) <= wid < Z.of_nat (shape0 tbl)) ->
  numpy_getitem tbl wid = Raise IndexError.
Proof.
  intros H. unfold numpy_getitem.
  destruct ((0 <=? wid) && (wid <? Z.of_nat (shape0 tbl))) eqn:E1.
  { apply andb_true_iff in E1 as [E1 E2].
    apply Z.leb_le in E1. apply Z.ltb_lt in E2. lia. }
  destruct ((- Z.of_nat (shape0 tbl) <=? wid) && (wid <? 0)) eqn:E2;
    [|reflexivity].
  apply andb_true_iff in E2 as [E2 E3].
  apply Z.leb_le in E2. apply Z.ltb_lt in E3. lia.
Qed.

Lemma partial_export_text_unfold (m : GeneVectorModel) (tbl : Tensor) (n : nat)
    (written : list (Z * string)) :
  header_line n (embedding_dim m)
  +:+ fold_right (fun '(wid, w) rest =>
                    embedding_line w (row tbl (Z.to_nat wid)) +:+ rest)
                 "" written
  = partial_export_text m tbl n written.
Proof.
  unfold partial_export_text, header_line. cbn [fold_right].
  rewrite !str_app_assoc. do 4 f_equal.
  induction written as [|[wid w] ids IH]; [reflexivity|].
  cbn [fold_right map]. rewrite IH. unfold embedding_line.
  now rewrite !str_app_assoc.
Qed.

(** X6. A key that is no row of the table (outside [-V, V)) stops the export
    with IndexError, and the file stays behind truncated: it holds the
    header, which announces the whole mapping, and only the rows of the
    entries before that key. *)
Theorem save_embedding_key_error (m : GeneVectorModel)
    (before after : list (Z * string)) (wid : Z) (name file_name : string)
    (layer : Z) (w : World) :
  let tbl := if layer =? 0 then wi m else wj m in
  rows_of (shape0 tbl) (map fst before) ->
  ~ (- Z.of_nat (shape0 tbl) <= wid < Z.of_nat (shape0 tbl)) ->
  save_embedding m (before ++ (wid, name) :: after) file_name layer w
  = ({| files := <[file_name := TextFile
           (partial_export_text m tbl
              (length (before ++ (wid, name) :: after)) before)]> (files w);
        stdout := stdout w |}, Raise IndexError).
Proof.
  intros tbl Hb Hwid. unfold save_embedding. fold tbl.
  unfold bind at 1. unfold open_w.
  unfold bind at 1. unfold write. cbn [files stdout].
  rewrite lookup_insert_eq, insert_insert_eq. cbn [text_of].
  rewrite for_each_app.
  erewrite bind_ok
    by (apply (for_each_lines tbl file_name before (files w) (stdout w)); exact Hb).
  cbn [for_each]. unfold bind at 1. unfold bind at 1. unfold lift.
  rewrite numpy_getitem_index_error by exact Hwid.
  change ("" +:+ ?x) with x.
  now rewrite partial_export_text_unfold.
Qed.

(** [save_embedding] writes to its file only. *)
Lemma save_embedding_other_files m ids file_name layer (p : string) :
  p <> file_name ->
  respects (fun w w' : World => files w' !! p = files w !! p)
           (save_embedding m ids file_name layer).
Proof.
  intros Hp.
  assert (forall s, respects (fun w w' : World => files w' !! p = files w !! p)
                             (write file_name s)) as Hw.
  { intros s w. cbn. now rewrite lookup_insert_ne. }
  unfold save_embedding.
  apply respects_bind; [congruence | |].
  { intros w. cbn. now rewrite lookup_insert_ne. }
  intros _. apply respects_bind; [congruence | apply Hw |]. intros _.
  apply respects_for_each; [reflexivity | congruence |].
  intros [wid name].
  apply respects_bind; [congruence | intros w; reflexivity |]. intros r. apply Hw.
Qed.

End ExportedFileMore.

Lemma save_embedding_header_counts_mapping_witness :
  let m := @GeneVectorModel_init toy_backend 3 2 1 false in
  exists text,
    @save_embedding toy_backend m [(1, "B")] "genes.vec" 1 empty_world
    = ({| files := <["genes.vec" := TextFile text]> ∅; stdout := [] |}, Ok tt)
    /\ length (str_lines text) = 2%nat
    /\ str_lines text !! 0%nat = Some "1 2".
Proof.
  intros m.
  destruct (@save_embedding_header_counts_mapping toy_backend m [(1, "B")]
              "genes.vec" 1 empty_world)
    as (text & Hrun & Hlen & Hhead & _).
  - repeat (constructor; [simpl; lia|]); constructor.
  - exact toy_str_float_nl_free.
  - repeat (constructor; [reflexivity|]); constructor.
  - exists text. now repeat split.
Defined.

(** X6 on a mapping whose second key is beyond the three rows. *)
Lemma save_embedding_key_error_witness :
  let m := @GeneVectorModel_init toy_backend 3 2 1 false in
  @save_embedding toy_backend m [(0, "A"); (3, "D"); (1, "B")] "genes.vec" 0
    empty_world
  = ({| files := <["genes.vec" := TextFile
           ("3 2" +:+ nl +:+ "A -4/4 -2/4" +:+ nl)]> ∅;
        stdout := [] |}, Raise IndexError).
Proof.
  intros m.
  apply (@save_embedding_key_error toy_backend m [(0, "A")] [(1, "B")] 3 "D"
           "genes.vec" 0 empty_world).
  - repeat (constructor; [simpl; lia|]); constructor.
  - simpl. lia.
Defined.

(** ** The two output files *)

Lemma prefix_app_mono (a s x : string) :
  String.prefix a s = true -> String.prefix a (s +:+ x) = true.
Proof.
  revert a. induction s as [|b s IH]; intros a H.
  - destruct a; [|discriminate H]. now destruct x.
  - destruct a as [|c a]; [reflexivity|].
    change (String.prefix (String c a) (String b (s +:+ x)) = true).
    cbn [String.prefix] in *.
    destruct (Ascii.ascii_dec c b); [now apply IH | discriminate H].
Qed.

Lemma prefix_vec_split (s : string) :
  String.prefix ".vec" s = true -> exists rest, s = ".vec" +:+ rest.
Proof.
  destruct s as [|c1 [|c2 [|c3 [|c4 s]]]]; cbv -[Ascii.ascii_dec];
    repeat match goal with
           | |- context [Ascii.ascii_dec ?a ?b] =>
               destruct (Ascii.ascii_dec a b) as [?|?]; [subst|];
               try discriminate
           end;
    try discriminate.
  intros _. now exists s.
Qed.

(** The first occurrence of ".vec" in a path that has one. *)
Lemma first_vec (s : string) :
  occurs ".vec" s = true ->
  exists stem rest, s = stem +:+ ".vec" +:+ rest /\ occurs ".vec" stem = false.
Proof.
  induction s as [|c s IH]; [discriminate|].
  cbn [occurs]. destruct (String.prefix ".vec" (String c s)) eqn:E.
  - intros _. apply prefix_vec_split in E as [rest ->].
    now exists "", rest.
  - cbn [orb]. intros H. destruct (IH H) as (stem & rest & -> & Hs).
    exists (String c stem), rest. split; [reflexivity|].
    cbn [occurs]. rewrite Hs.
    destruct (String.prefix ".vec" (String c stem)) eqn:E'; [|reflexivity].
    apply (prefix_app_mono _ _ (".vec" +:+ rest)) in E'.
    change (String c stem +:+ ".vec" +:+ rest)
      with (String c (stem +:+ ".vec" +:+ rest)) in E'.
    congruence.
Qed.

(** A path with ".vec" in it is changed by the replacement. *)
Lemma replace_vec_changes (p : string) :
  occurs ".vec" p = true -> str_replace p ".vec" "2.vec" <> p.
Proof.
  intros H. destruct (first_vec p H) as (stem & rest & -> & Hs).
  rewrite replace_vec_first by exact Hs.
  intros E. apply (inj (String.app stem)) in E. discriminate E.
Qed.

Section OutputFiles.
Context `{B : Backend}.

(** X7. When the output path holds no ".vec", the output-role path is the
    output path itself: the second export overwrites the first, and the one
    file left holds the output-role table. *)
Theorem exports_collide_without_vec (self : GeneVector) (w : World) :
  occurs ".vec" (output_file_name self) = false ->
  exportable self ->
  save_both (self, w)
  = ((self,
      {| files := <[output_file_name self
                     := TextFile (export_text (model self) (wj (model self))
                                    (id2gene (data (dataset self))))]> (files w);
         stdout := stdout w |}), Ok tt).
Proof.
  intros Hno He. rewrite save_both_files by exact He.
  rewrite replace_vec_absent by exact Hno.
  now rewrite insert_insert_eq.
Qed.

(** X8. When the output path holds ".vec", the output-role path is another
    string: it is the output path with "2" put in before its first ".vec",
    and with what follows that ".vec" rewritten in the same way.  The second
    export is therefore opened under a name that differs from the first. *)
Theorem derived_path_differs_with_vec (self : GeneVector) :
  occurs ".vec" (output_file_name self) = true ->
  let derived := str_replace (output_file_name self) ".vec" "2.vec" in
  derived <> output_file_name self
  /\ exists stem rest,
       output_file_name self = stem +:+ ".vec" +:+ rest
       /\ occurs ".vec" stem = false
       /\ derived = stem +:+ "2.vec" +:+ str_replace rest ".vec" "2.vec".
Proof.
  intros Hvec derived. split; [now apply replace_vec_changes|].
  destruct (first_vec _ Hvec) as (stem & rest & Hp & Hs).
  exists stem, rest. split; [exact Hp|]. split; [exact Hs|].
  unfold derived. rewrite Hp. now apply replace_vec_first.
Qed.

End OutputFiles.

Lemma exports_collide_without_vec_witness :
  match toy_trainer "genes.txt" "cpu" false with
  | Ok self =>
      exists w', @save_both toy_backend (self, empty_world) = ((self, w'), Ok tt)
        /\ files w' = {["genes.txt" :=
             TextFile (@export_text toy_backend (model self) (wj (model self))
                         [(2, "C"); (0, "A"); (1, "B")])]}
  | Raise _ => False
  end.
Proof.
  cbn [toy_trainer]. unfold GeneVector_init. cbn -[save_both export_text].
  eexists. split.
  - apply (@exports_collide_without_vec toy_backend).
    + reflexivity.
    + split; repeat (constructor; [simpl; lia|]); constructor.
  - reflexivity.
Defined.

Lemma derived_path_differs_with_vec_witness :
  match toy_trainer "d.vec/genes.vec" "cpu" false with
  | Ok self =>
      str_replace (output_file_name self) ".vec" "2.vec" <> output_file_name self
      /\ str_replace (output_file_name self) ".vec" "2.vec" = "d2.vec/genes2.vec"
  | Raise _ => False
  end.
Proof.
  destruct (toy_trainer "d.vec/genes.vec" "cpu" false) as [self|e] eqn:E;
    [|discriminate E].
  assert (output_file_name self = "d.vec/genes.vec") as Hp.
  { revert E. unfold toy_trainer, GeneVector_init. cbn. now intros [= <-]. }
  destruct (@derived_path_differs_with_vec toy_backend self) as (Hne & _).
  - rewrite Hp. reflexivity.
  - split; [exact Hne | rewrite Hp; reflexivity].
Defined.

(** ** What a run keeps *)

Section RespectRun.
Context `{B : Backend}.
Variable R : St -> St -> Prop.
Hypothesis R_refl : forall st, R st st.
Hypothesis R_trans : forall a b c, R a b -> R b c -> R a c.
Hypothesis R_request : respects R request_batches.
Hypothesis R_batch : forall alpha beta b, respects R (train_batch alpha beta b).
Hypothesis R_mean : forall x, respects R (append_mean x).
Hypothesis R_incr : respects R incr_epoch.
Hypothesis R_print : forall line, respects R (in_world (print line)).
Hypothesis R_save_both : respects R save_both.

Lemma run_stop_or_continue th curr last :
  respects R (stop_or_continue th curr last).
Proof.
  unfold stop_or_continue. destruct (converged th curr last).
  - apply respects_bind; [exact R_trans | apply R_print |]. intros _.
    apply respects_bind; [exact R_trans | exact R_save_both |]. intros _.
    apply respects_ret, R_refl.
  - apply respects_bind; [exact R_trans | apply R_incr |]. intros _.
    apply respects_ret, R_refl.
Qed.

Lemma run_train_epoch th ui alpha beta last :
  respects R (train_epoch th ui alpha beta last).
Proof.
  apply respects_bind; [exact R_trans | now apply respects_run_sweep |].
  intros _.
  apply respects_bind; [exact R_trans | now apply respects_get_self |].
  intros self.
  apply respects_bind; [exact R_trans | apply R_mean |]. intros _.
  apply respects_bind; [exact R_trans | now apply respects_log_epoch |].
  intros _. apply run_stop_or_continue.
Qed.

Lemma run_train_loop n th ui alpha beta last :
  respects R (train_loop n th ui alpha beta last).
Proof.
  revert last. induction n as [|n IH]; intros last; cbn [train_loop].
  - apply respects_bind; [exact R_trans | apply R_print |]. intros _.
    exact R_save_both.
  - apply respects_bind; [exact R_trans | apply run_train_epoch |].
    intros [|curr]; [apply respects_ret, R_refl | apply IH].
Qed.

End RespectRun.

Section Kept.
Context `{B : Backend}.

Lemma save_both_self (self : GeneVector) (w : World) :
  fst (fst (save_both (self, w))) = self.
Proof.
  unfold save_both. rewrite (bind_ok _ _ _ (self, w) self) by reflexivity.
  unfold bind.
  destruct (in_world (save_embedding (model self) (id2gene (data (dataset self)))
                        (output_file_name self) 0) (self, w))
    as [[s1 w1] [[]|e]] eqn:E1;
    pose proof (in_world_self (save_embedding (model self)
                  (id2gene (data (dataset self))) (output_file_name self) 0) self w)
      as H1; rewrite E1 in H1; cbn in H1; subst s1; [|reflexivity].
  apply in_world_self.
Qed.

Lemma apply_step_config (self : GeneVector) alpha beta b loss :
  let self' := apply_step self alpha beta b loss in
  output_file_name self' = output_file_name self
  /\ emb_size self' = emb_size self
  /\ emb_dimension self' = emb_dimension self
  /\ batch_size self' = batch_size self
  /\ device self' = device self
  /\ dataset self' = dataset self
  /\ epoch self' = epoch self
  /\ mean_loss_values self' = mean_loss_values self.
Proof.
  unfold apply_step.
  destruct (backward_step _ _ _ _ _ _ _) as [[acc' ei] ej]. cbn. now repeat split.
Qed.

(** *** Progress *)

Lemma progress_refl (st : St) : progress st st.
Proof.
  repeat split; try lia; exists []; now rewrite app_nil_r.
Qed.

Lemma progress_trans (a b c : St) : progress a b -> progress b c -> progress a c.
Proof.
  intros ([l1 Hl1] & [m1 Hm1] & He1 & Hs1 & Ho1)
         ([l2 Hl2] & [m2 Hm2] & He2 & Hs2 & Ho2).
  repeat split; try lia.
  - exists (l1 ++ l2). now rewrite Hl2, Hl1, app_assoc.
  - exists (m1 ++ m2). now rewrite Hm2, Hm1, app_assoc.
Qed.

Lemma progress_same_self (self : GeneVector) (w w' : World) :
  progress (self, w) (self, w').
Proof.
  repeat split; cbn; try lia; exists []; now rewrite app_nil_r.
Qed.

Lemma progress_in_world {A} (c : Py World A) : respects progress (in_world c).
Proof.
  intros [self w]. unfold in_world. destruct (c w) as [w' r].
  apply progress_same_self.
Qed.

Lemma progress_batch alpha beta b : respects progress (train_batch alpha beta b).
Proof.
  intros [self w].
  destruct (train_batch_cases alpha beta b self w) as [(loss & _ & ->)|(e & ->)];
    [|apply progress_refl].
  destruct (apply_step_counts self alpha beta b loss) as [Hl Hs].
  destruct (apply_step_config self alpha beta b loss)
    as (_ & _ & _ & _ & _ & Hd & He & Hm).
  unfold progress. cbn [fst]. repeat split.
  - now exists [loss].
  - exists []. now rewrite Hm, app_nil_r.
  - lia.
  - now rewrite Hd.
  - lia.
Qed.

Lemma progress_save_both : respects progress save_both.
Proof.
  intros [self w].
  pose proof (save_both_self self w) as H.
  destruct (save_both (self, w)) as [[s' w'] r]. cbn in H. subst s'.
  apply progress_same_self.
Qed.

(** X9. Whatever its arguments and however it ends, [train] only adds to
    what the trainer has recorded: the loss trace and the mean-loss trace
    before the call are prefixes of those after it, and the epoch counter,
    the number of sweeps requested and the number of optimizer steps do not
    decrease. *)
Theorem train_only_adds (epochs : Z) (th ui : pyval) (alpha beta : Q)
    (self : GeneVector) (w : World) :
  progress (self, w) (fst (train epochs th ui alpha beta (self, w))).
Proof.
  apply (run_train_loop progress progress_refl progress_trans).
  - intros [s w0]. repeat split; cbn; try lia; exists []; now rewrite app_nil_r.
  - exact progress_batch.
  - intros x [s w0]. repeat split; cbn; try lia;
      [exists [] | exists [x]]; now rewrite ?app_nil_r.
  - intros [s w0]. repeat split; cbn; try lia; exists []; now rewrite app_nil_r.
  - intros line. apply progress_in_world.
  - exact progress_save_both.
Qed.

(** *** The frame of a run *)

Lemma run_frame_refl (st : St) : run_frame st st.
Proof. now repeat split. Qed.

Lemma run_frame_trans (a b c : St) :
  run_frame a b -> run_frame b c -> run_frame a c.
Proof.
  intros (Ho1 & Hs1 & Hd1 & Hb1 & Hv1 & Hg1 & Hf1)
         (Ho2 & Hs2 & Hd2 & Hb2 & Hv2 & Hg2 & Hf2).
  repeat split; try congruence.
  intros p Hp1 Hp2. rewrite Hf2 by (rewrite Ho1; assumption). now apply Hf1.
Qed.

Lemma run_frame_batch alpha beta b : respects run_frame (train_batch alpha beta b).
Proof.
  intros [self w].
  destruct (train_batch_cases alpha beta b self w) as [(loss & _ & ->)|(e & ->)];
    [|apply run_frame_refl].
  destruct (apply_step_config self alpha beta b loss)
    as (Ho & Hs & Hd & Hb & Hv & Hg & _ & _).
  unfold run_frame. cbn [fst snd]. repeat split; try assumption. now rewrite Hg.
Qed.

Lemma save_both_world (self : GeneVector) (w : World) :
  let m := model self in
  let ids := id2gene (data (dataset self)) in
  let first := save_embedding m ids (output_file_name self) 0 w in
  snd (fst (save_both (self, w)))
  = match snd first with
    | Ok _ => fst (save_embedding m ids
                     (str_replace (output_file_name self) ".vec" "2.vec") 1
                     (fst first))
    | Raise _ => fst first
    end.
Proof.
  intros m ids first. unfold save_both, bind, get_self, in_world.
  fold m ids. fold first.
  destruct first as [w1 [[]|e]]; cbn [fst snd]; [|reflexivity].
  now destruct (save_embedding m ids _ 1 w1).
Qed.

Lemma run_frame_save_both : respects run_frame save_both.
Proof.
  intros [self w]. pose proof (save_both_self self w) as Hself.
  unfold run_frame. cbn [fst snd]. rewrite Hself.
  repeat split. intros p Hp1 Hp2.
  rewrite save_both_world.
  pose proof (save_embedding_other_files (model self)
                (id2gene (data (dataset self))) (output_file_name self) 0 p Hp1 w)
    as H1. cbn beta in H1.
  destruct (save_embedding (model self) (id2gene (data (dataset self)))
              (output_file_name self) 0 w) as [w1 [[]|e]];
    cbn [fst snd] in *; [|exact H1].
  rewrite <- H1.
  apply (save_embedding_other_files (model self) (id2gene (data (dataset self)))
           _ 1 p Hp2 w1).
Qed.

(** X10. Whatever its arguments and however it ends, [train] keeps the
    configuration of the trainer (output path, vocabulary size, embedding
    dimension, batch size, device, the mappings of the dataset) and changes
    no file other than the two output files. *)
Theorem train_touches_only_its_outputs (epochs : Z) (th ui : pyval)
    (alpha beta : Q) (self : GeneVector) (w : World) :
  run_frame (self, w) (fst (train epochs th ui alpha beta (self, w))).
Proof.
  apply (run_train_loop run_frame run_frame_refl run_frame_trans).
  - intros [s w0]. now repeat split.
  - exact run_frame_batch.
  - intros x [s w0]. now repeat split.
  - intros [s w0]. now repeat split.
  - intros line [s w0]. now repeat split.
  - exact run_frame_save_both.
Qed.

End Kept.

(** ** Runs that end with an error *)

Section Aborted.
Context `{B : Backend}.

Lemma log_epoch_fails (ui : pyval) (self : GeneVector) (w : World) :
  (py_int ui = Ok 0 ->
   log_epoch ui (self, w) = ((self, w), Raise ZeroDivisionError))
  /\ (forall e, py_int ui = Raise e ->
      log_epoch ui (self, w) = ((self, w), Raise e)).
Proof.
  unfold log_epoch. split.
  - intros H. rewrite (bind_ok _ _ _ (self, w) self) by reflexivity.
    now rewrite (bind_ok _ _ _ (self, w) 0) by (unfold lift; now rewrite H).
  - intros e H. rewrite (bind_ok _ _ _ (self, w) self) by reflexivity.
    now rewrite (bind_raise _ _ _ (self, w) e) by (unfold lift; now rewrite H).
Qed.

(** The first iteration of the loop over the epochs, up to the logging
    step. *)
Lemma train_first_epoch_to_log epochs th ui alpha beta
    (self self1 : GeneVector) (w w1 : World) :
  0 < epochs ->
  run_sweep alpha beta (self, w) = ((self1, w1), Ok tt) ->
  let curr := numpy_mean (last_n 10 (loss_values self1)) in
  train epochs th ui alpha beta (self, w)
  = bind (bind (log_epoch ui) (fun _ => stop_or_continue th curr (Some 0%Q)))
         (fun r => match r with
                   | Return => ret tt
                   | Next curr_loss =>
                       train_loop (Nat.pred (Z.to_nat epochs)) th ui alpha beta
                                  curr_loss
                   end) (add_mean self1 curr, w1).
Proof.
  intros Hep Hs curr. unfold train.
  destruct (Z.to_nat epochs) as [|n] eqn:Hn; [lia|].
  cbn [train_loop Nat.pred]. unfold train_epoch.
  rewrite bind_bind, (bind_ok _ _ _ _ _ Hs).
  unfold finish_epoch.
  rewrite bind_bind, (bind_ok _ _ _ (self1, w1) self1) by reflexivity.
  rewrite bind_bind, (bind_ok _ _ _ (add_mean self1 curr, w1) tt) by reflexivity.
  reflexivity.
Qed.

(** X11. An update interval that [int] turns into 0 (0 itself, or a float
    strictly between -1 and 1) makes [train] raise ZeroDivisionError at the
    end of its first epoch, and one that [int] rejects makes it raise that
    error there: the sweep has run and its mean is recorded, nothing is
    printed and no file is written. *)
Theorem train_bad_update_interval (epochs : Z) (th ui : pyval) (alpha beta : Q)
    (self self1 : GeneVector) (w w1 : World) :
  0 < epochs ->
  run_sweep alpha beta (self, w) = ((self1, w1), Ok tt) ->
  let self2 := add_mean self1 (numpy_mean (last_n 10 (loss_values self1))) in
  (py_int ui = Ok 0 ->
   train epochs th ui alpha beta (self, w) = ((self2, w), Raise ZeroDivisionError))
  /\ (forall e, py_int ui = Raise e ->
      train epochs th ui alpha beta (self, w) = ((self2, w), Raise e)).
Proof.
  intros Hep Hs self2.
  destruct (run_sweep_frame alpha beta self self1 w w1 _ Hs) as (_ & _ & _ & ->).
  rewrite (train_first_epoch_to_log epochs th ui alpha beta self self1 w w Hep Hs).
  fold self2. destruct (log_epoch_fails ui self2 w) as [H0 He]. split.
  - intros H. rewrite bind_bind. now rewrite (bind_raise _ _ _ _ _ (H0 H)).
  - intros e H. rewrite bind_bind. now rewrite (bind_raise _ _ _ _ _ (He e H)).
Qed.

(** X12. A batch with an index outside [0, vocabulary_size) raises
    IndexError before anything is updated: the tables, the optimizer and the
    loss trace are as they were. *)
Theorem train_batch_index_error (alpha beta : Q) (b : batch)
    (self : GeneVector) (w : World) :
  ~ rows_of (shape0 (wi (model self))) (i_idx b)
  \/ (rows_of (shape0 (wi (model self))) (i_idx b)
      /\ ~ rows_of (shape0 (wj (model self))) (j_idx b)) ->
  train_batch alpha beta b (self, w) = ((self, w), Raise IndexError).
Proof.
  intros H. unfold train_batch, batch_loss, forward.
  destruct H as [Hi|[Hi Hj]].
  - now rewrite embedding_index_error.
  - rewrite embedding_rows by assumption. cbn [rbind].
    now rewrite embedding_index_error.
Qed.



End Aborted.

Lemma train_bad_update_interval_witness :
  match toy_trainer "genes.vec" "cpu" false with
  | Ok self =>
      snd (@train toy_backend 3 PyNone (PyFloat (1 # 2)) 0 0 (self, empty_world))
      = Raise ZeroDivisionError
      /\ snd (@train toy_backend 3 PyNone PyNone 0 0 (self, empty_world))
         = Raise TypeError
  | Raise _ => False
  end.
Proof.
  destruct (toy_trainer "genes.vec" "cpu" false) as [self|e] eqn:E;
    [|discriminate E].
  set (r := @run_sweep toy_backend 0 0 (self, empty_world)).
  assert (r = ((fst (fst r), snd (fst r)), Ok tt)) as Hr.
  { revert E. unfold toy_trainer, GeneVector_init. cbn -[run_sweep].
    intros [= <-]. vm_compute. reflexivity. }
  split.
  - destruct (@train_bad_update_interval toy_backend 3 PyNone (PyFloat (1 # 2))
                0 0 self (fst (fst r)) empty_world (snd (fst r)))
      as [H _]; [lia | exact Hr |].
    now rewrite H.
  - destruct (@train_bad_update_interval toy_backend 3 PyNone PyNone
                0 0 self (fst (fst r)) empty_world (snd (fst r)))
      as [_ H]; [lia | exact Hr |].
    now rewrite (H TypeError eq_refl).
Defined.

Lemma train_batch_index_error_witness :
  match toy_trainer "genes.vec" "cpu" false with
  | Ok self =>
      @train_batch toy_backend 0 0
        {| x_ij := [1%Q; 0%Q]; i_idx := [0; 5]; j_idx := [1; 2] |}
        (self, empty_world)
      = ((self, empty_world), Raise IndexError)
  | Raise _ => False
  end.
Proof.
  cbn [toy_trainer]. unfold GeneVector_init. cbn -[train_batch].
  apply (@train_batch_index_error toy_backend). left. cbn.
  intros H. apply Forall_cons in H as [_ H]. apply Forall_cons in H as [H _].
  lia.
Defined.


(** ** Runs that go through all their epochs *)

Section FullRuns.
Context `{B : Backend}.

Lemma log_epoch_self (ui : pyval) (self self' : GeneVector) (w w' : World) r :
  log_epoch ui (self, w) = ((self', w'), r) -> self' = self.
Proof.
  unfold log_epoch.
  rewrite (bind_ok _ _ _ (self, w) self) by reflexivity.
  unfold bind, lift. destruct (py_int ui) as [n|e]; [|now intros [= <- _ _]].
  destruct (n =? 0); [now intros [= <- _ _]|].
  destruct (epoch self mod n =? 0); now intros [= <- _ _].
Qed.

(** A sweep leaves the mean-loss trace alone. *)
Lemma run_sweep_mean alpha beta (self self1 : GeneVector) (w w1 : World) r :
  run_sweep alpha beta (self, w) = ((self1, w1), r) ->
  mean_loss_values self1 = mean_loss_values self.
Proof.
  unfold run_sweep. intros H.
  rewrite (bind_ok _ _ _ (with_dataset self (next_sweep (dataset self)), w)
             (get_batches (dataset self) (batch_size self) (sweeps (dataset self))))
    in H by reflexivity.
  pose proof (respects_for_each batch_frame batch_frame_refl batch_frame_trans
                (get_batches (dataset self) (batch_size self) (sweeps (dataset self)))
                (train_batch alpha beta) (batch_frame_batch alpha beta)
                (with_dataset self (next_sweep (dataset self)), w)) as F.
  rewrite H in F. now destruct F as (_ & _ & _ & Hm & _).
Qed.

(** An epoch that completes without a float threshold goes on to the
    next. *)
Lemma train_epoch_goes_on th ui alpha beta last
    (self self1 : GeneVector) (w w1 : World) (r : flow) :
  (forall t, th <> PyFloat t) ->
  train_epoch th ui alpha beta last (self, w) = ((self1, w1), Ok r) ->
  (exists curr, r = Next curr)
  /\ epoch self1 = epoch self + 1
  /\ sweeps (dataset self1) = S (sweeps (dataset self))
  /\ length (mean_loss_values self1) = S (length (mean_loss_values self)).
Proof.
  intros Hth. unfold train_epoch.
  destruct (run_sweep alpha beta (self, w)) as [[sa wa] [[]|e]] eqn:Hs.
  2:{ rewrite (bind_raise _ _ _ _ _ Hs). discriminate. }
  rewrite (bind_ok _ _ _ _ _ Hs).
  destruct (run_sweep_frame alpha beta self sa w wa _ Hs) as (Hd & He & _ & ->).
  pose proof (run_sweep_mean alpha beta self sa w w _ Hs) as Hm.
  unfold finish_epoch.
  rewrite (bind_ok _ _ _ (sa, w) sa) by reflexivity.
  set (curr := numpy_mean (last_n 10 (loss_values sa))).
  rewrite (bind_ok _ _ _ (add_mean sa curr, w) tt) by reflexivity.
  destruct (log_epoch ui (add_mean sa curr, w)) as [[sb wb] [[]|e]] eqn:Hl.
  2:{ rewrite (bind_raise _ _ _ _ _ Hl). discriminate. }
  rewrite (bind_ok _ _ _ _ _ Hl).
  apply log_epoch_self in Hl. subst sb.
  unfold stop_or_continue. rewrite converged_not_float by exact Hth.
  rewrite (bind_ok _ _ _ (bump_epoch (add_mean sa curr), wb) tt) by reflexivity.
  intros [= <- <- <-]. cbn. split; [now exists curr|].
  rewrite He, Hd, Hm, length_app. cbn. repeat split; lia.
Qed.

Lemma train_loop_runs_all n th ui alpha beta last
    (self self' : GeneVector) (w w' : World) :
  (forall t, th <> PyFloat t) ->
  train_loop n th ui alpha beta last (self, w) = ((self', w'), Ok tt) ->
  epoch self' = epoch self + Z.of_nat n
  /\ sweeps (dataset self') = (sweeps (dataset self) + n)%nat
  /\ length (mean_loss_values self')
     = (length (mean_loss_values self) + n)%nat.
Proof.
  intros Hth. revert last self w.
  induction n as [|n IH]; intros last self w; cbn [train_loop].
  - rewrite (bind_ok _ _ _
               (self, {| files := files w;
                         stdout := stdout w ++
                           [bcolors.WARNING +:+ "Saving model..." +:+ bcolors.ENDC] |})
               tt) by reflexivity.
    intros H.
    pose proof (save_both_self self
                  {| files := files w;
                     stdout := stdout w ++
                       [bcolors.WARNING +:+ "Saving model..." +:+ bcolors.ENDC] |})
      as Hself.
    rewrite H in Hself. cbn in Hself.
    subst self'. repeat split; lia.
  - destruct (train_epoch th ui alpha beta last (self, w))
      as [[s1 w1] [r|e]] eqn:He.
    2:{ rewrite (bind_raise _ _ _ _ _ He). discriminate. }
    rewrite (bind_ok _ _ _ _ _ He).
    destruct (train_epoch_goes_on th ui alpha beta last self s1 w w1 r Hth He)
      as ([curr ->] & H1 & H2 & H3).
    intros H. destruct (IH _ _ _ H) as (I1 & I2 & I3).
    repeat split; lia.
Qed.

(** X14. Without a float threshold (unset, or an int) [train] has no early
    exit: a call that returns has run all its epochs, each with one sweep and
    one recorded mean, and has advanced the epoch counter by their number. *)
Theorem train_without_float_threshold_runs_all_epochs (epochs : Z)
    (th ui : pyval) (alpha beta : Q) (self self' : GeneVector) (w w' : World) :
  (forall t, th <> PyFloat t) ->
  train epochs th ui alpha beta (self, w) = ((self', w'), Ok tt) ->
  epoch self' = epoch self + Z.max 0 epochs
  /\ sweeps (dataset self') = (sweeps (dataset self) + Z.to_nat epochs)%nat
  /\ length (mean_loss_values self')
     = (length (mean_loss_values self) + Z.to_nat epochs)%nat.
Proof.
  intros Hth H.
  destruct (train_loop_runs_all _ _ _ _ _ _ _ _ _ _ Hth H) as (H1 & H2 & H3).
  repeat split; try assumption. rewrite H1. lia.
Qed.

(** A comparison with not-a-number is false. *)
Lemma converged_nan (th : pyval) (last : option Q) : converged th None last = false.
Proof. now destruct th. Qed.

Lemma train_loop_without_batches n th ui alpha beta last k
    (self : GeneVector) (w : World) :
  (forall bs s, get_batches (dataset self) bs s = []) ->
  loss_values self = [] ->
  py_int ui = Ok k -> k <> 0 ->
  exportable self ->
  exists self' w',
    train_loop n th ui alpha beta last (self, w) = ((self', w'), Ok tt)
    /\ epoch self' = epoch self + Z.of_nat n
    /\ mean_loss_values self' = mean_loss_values self ++ repeat None n
    /\ loss_values self' = []
    /\ model self' = model self
    /\ optimizer self' = optimizer self
    /\ files w'
       = <[str_replace (output_file_name self) ".vec" "2.vec"
             := TextFile (export_text (model self) (wj (model self))
                            (id2gene (data (dataset self))))]>
           (<[output_file_name self
                := TextFile (export_text (model self) (wi (model self))
                               (id2gene (data (dataset self))))]> (files w)).
Proof.
  intros Hb Hl Hk Hnz. revert last self w Hb Hl.
  induction n as [|n IH]; intros last self w Hb Hl Hex.
  - cbn [train_loop]. eexists self, _. split.
    + erewrite bind_ok by reflexivity. now apply save_both_files.
    + cbn. rewrite app_nil_r. repeat split; try assumption. lia.
  - assert (run_sweep alpha beta (self, w)
            = ((with_dataset self (next_sweep (dataset self)), w), Ok tt)) as Hs.
    { unfold run_sweep.
      rewrite (bind_ok _ _ _ (with_dataset self (next_sweep (dataset self)), w) [])
        by (cbn; now rewrite Hb).
      reflexivity. }
    rewrite (train_epoch_after_sweep th ui alpha beta last n self _ w w k Hs Hk Hnz).
    cbn [loss_values with_dataset]. rewrite Hl.
    change (numpy_mean (last_n 10 [])) with (@None Q).
    unfold stop_or_continue. rewrite converged_nan.
    set (self2 := add_mean (with_dataset self (next_sweep (dataset self))) None).
    set (w2 := if epoch self2 mod k =? 0
               then {| files := files w; stdout := stdout w ++ [epoch_line self2] |}
               else w).
    rewrite bind_bind.
    rewrite (bind_ok _ _ _ (bump_epoch self2, w2) tt) by reflexivity.
    rewrite (bind_ok _ _ _ (bump_epoch self2, w2) (Next None)) by reflexivity.
    destruct (IH None (bump_epoch self2) w2) as (self' & w' & Hrun & He & Hm & Hl' & Hmod & Hopt & Hf).
    + intros bs s. apply Hb.
    + exact Hl.
    + exact Hex.
    + exists self', w'. split; [exact Hrun|].
      rewrite He, Hm, Hl', Hmod, Hopt, Hf. cbn.
      assert (files w2 = files w) as -> by (unfold w2; now destruct (_ =? 0)).
      rewrite <- app_assoc. repeat split. lia.
Qed.

(** X15. On a dataset that yields no batch and a trainer without recorded
    losses, the mean of an epoch is not-a-number and no threshold stops the
    run: [train] goes through all its epochs, recording not-a-number for
    each, changes neither table nor optimizer, and ends by exporting the two
    tables. *)
Theorem train_without_batches_never_converges (epochs : Z) (th ui : pyval)
    (alpha beta : Q) (k : Z) (self : GeneVector) (w : World) :
  (forall bs s, get_batches (dataset self) bs s = []) ->
  loss_values self = [] ->
  py_int ui = Ok k -> k <> 0 ->
  exportable self ->
  exists self' w',
    train epochs th ui alpha beta (self, w) = ((self', w'), Ok tt)
    /\ epoch self' = epoch self + Z.max 0 epochs
    /\ mean_loss_values self'
       = mean_loss_values self ++ repeat None (Z.to_nat epochs)
    /\ loss_values self' = []
    /\ model self' = model self
    /\ optimizer self' = optimizer self
    /\ files w' !! str_replace (output_file_name self) ".vec" "2.vec"
       = Some (TextFile (export_text (model self) (wj (model self))
                           (id2gene (data (dataset self))))).
Proof.
  intros Hb Hl Hk Hnz Hex.
  destruct (train_loop_without_batches (Z.to_nat epochs) th ui alpha beta
              (Some 0%Q) k self w Hb Hl Hk Hnz Hex)
    as (self' & w' & Hrun & He & Hm & Hl' & Hmod & Hopt & Hf).
  exists self', w'. split; [exact Hrun|].
  repeat split; try assumption.
  - rewrite He. lia.
  - rewrite Hf. apply lookup_insert_eq.
Qed.

End FullRuns.

Lemma train_without_float_threshold_runs_all_epochs_witness :
  match toy_trainer "genes.vec" "cpu" false with
  | Ok self =>
      let self' := fst (fst (@train toy_backend 3 (PyInt 1) (PyInt 20) 0 0
                               (self, empty_world))) in
      epoch self' = 3 /\ sweeps (dataset self') = 3%nat
      /\ length (mean_loss_values self') = 3%nat
  | Raise _ => False
  end.
Proof.
  cbn [toy_trainer]. unfold GeneVector_init. cbn -[train].
  match goal with
  | |- context [train _ _ _ _ _ (?s, _)] => set (self := s)
  end.
  set (r := @train toy_backend 3 (PyInt 1) (PyInt 20) 0 0 (self, empty_world)).
  apply (@train_without_float_threshold_runs_all_epochs toy_backend 3 (PyInt 1)
           (PyInt 20) 0 0 self (fst (fst r)) empty_world (snd (fst r))).
  - discriminate.
  - vm_compute. reflexivity.
Defined.

Lemma train_without_batches_never_converges_witness :
  match @GeneVector_init toy_backend silent_dataset "genes.vec" 2 PyNone 1 100
          "cpu" false with
  | Ok self =>
      exists self' w',
        @train toy_backend 4 (PyFloat 1000) (PyInt 20) 0 0 (self, empty_world)
        = ((self', w'), Ok tt)
        /\ epoch self' = 4
        /\ mean_loss_values self' = [None; None; None; None]
  | Raise _ => False
  end.
Proof.
  unfold GeneVector_init. cbn -[train].
  match goal with
  | |- context [train _ _ _ _ _ (?s, _)] => set (self := s)
  end.
  destruct (@train_without_batches_never_converges toy_backend 4 (PyFloat 1000)
              (PyInt 20) 0 0 20 self empty_world)
    as (self' & w' & Hrun & He & Hm & _).
  - reflexivity.
  - reflexivity.
  - reflexivity.
  - discriminate.
  - split; repeat (constructor; [simpl; lia|]); constructor.
  - exists self', w'. split; [exact Hrun|]. split; [exact He | exact Hm].
Defined.

(** ** The magnitude penalty and the loss of a batch *)

Lemma zip_with_seq_nth {A} (f : Q -> A -> Q) (g : nat -> Q) (d : A)
    (n a : nat) (l : list A) :
  length l = n ->
  zip_with f (map g (seq a n)) l
  = map (fun k => f (g k) (nth (k - a) l d)) (seq a n).
Proof.
  revert a l. induction n as [|n IH]; intros a [|x l] H; try discriminate H;
    [reflexivity|].
  cbn [seq map zip_with]. rewrite Nat.sub_diag. cbn [nth]. f_equal.
  rewrite (IH (S a) l) by (now injection H).
  apply map_ext_in. intros k Hk. apply in_seq in Hk.
  replace (k - a)%nat with (S (k - S a)) by lia. reflexivity.
Qed.

Section Penalties.
Context `{B : Backend}.

(** X16. The magnitude penalty of a batch is [beta] times the sum, over the
    vocabulary, of the squared difference between the diagonal entry of
    [W_i W_j^T] and the target of the entity; it is zero when the diagonal
    meets the targets. *)
Theorem magnitude_penalty_value (beta : Q) (m : GeneVectorModel) (ent : list Q) :
  shape_ok m ->
  length ent = num_embeddings m ->
  let gap k := (Qsum_upto (embedding_dim m)
                  (fun c => entry (wi m) k c * entry (wj m) k c)
                - nth k ent 0)%Q in
  exists p, magnitude_penalty beta (wi m) (wj m) ent = Ok p
    /\ p = (beta * Qsum_upto (num_embeddings m) (fun k => gap k * gap k))%Q
    /\ ((forall k, (k < num_embeddings m)%nat -> (gap k == 0)%Q) -> (p == 0)%Q).
Proof.
  intros (Hi0 & Hi1 & Hj0 & Hj1) Hlen gap.
  assert (magnitude_penalty beta (wi m) (wj m) ent
          = Ok (beta * Qsum_upto (num_embeddings m) (fun k => gap k * gap k))%Q)
    as Hval.
  { unfold magnitude_penalty, matmul. cbn [t shape0 shape1].
    rewrite Hi1, Hj1, Nat.eqb_refl. cbn [rbind].
    unfold diag. cbn [shape0 shape1 entry]. rewrite Hi0, Hj0, Nat.min_id.
    unfold broadcast. rewrite length_map, length_seq, Hlen, Nat.eqb_refl.
    cbn [rbind]. do 2 f_equal.
    rewrite (zip_with_seq_nth Qminus _ 0%Q (num_embeddings m) 0 ent Hlen).
    rewrite map_map. unfold Qsum_upto, gap. f_equal. apply map_ext. intros k.
    cbn [t entry]. now rewrite Nat.sub_0_r. }
  eexists. split; [exact Hval|]. split; [reflexivity|].
  intros Hz.
  assert (Qsum_upto (num_embeddings m) (fun k => gap k * gap k) == 0)%Q as ->.
  { unfold Qsum_upto. apply Qsum_map_zero. intros k Hk. apply in_seq in Hk.
    rewrite (Hz k) by lia. ring. }
  ring.
Qed.

(** X17. When the targets are neither one per row of the tables nor a single
    one, the magnitude penalty cannot be computed, whatever [beta] (0
    included): it raises RuntimeError. *)
Theorem magnitude_penalty_target_mismatch (beta : Q) (m : GeneVectorModel)
    (ent : list Q) :
  shape_ok m ->
  length ent <> num_embeddings m ->
  length ent <> 1%nat ->
  num_embeddings m <> 1%nat ->
  magnitude_penalty beta (wi m) (wj m) ent = Raise RuntimeError.
Proof.
  intros (Hi0 & Hi1 & Hj0 & Hj1) Hne H1 Hv.
  unfold magnitude_penalty, matmul. cbn [t shape0 shape1].
  rewrite Hi1, Hj1, Nat.eqb_refl. cbn [rbind].
  unfold diag. cbn [shape0 shape1 entry]. rewrite Hi0, Hj0, Nat.min_id.
  unfold broadcast. rewrite length_map, length_seq.
  destruct (Nat.eqb_spec (num_embeddings m) (length ent)) as [E|_]; [congruence|].
  destruct (num_embeddings m) as [|[|v]]; [| congruence |];
    destruct ent as [|x [|y ent]]; cbn in *; try reflexivity; congruence.
Qed.




End Penalties.

Lemma magnitude_penalty_value_witness :
  let m := @GeneVectorModel_init toy_backend 3 2 1 true in
  exists p, magnitude_penalty (5 # 2) (wi m) (wj m) [1; 1; 0]%Q = Ok p
    /\ (p == 0)%Q.
Proof.
  intros m.
  destruct (magnitude_penalty_value (5 # 2) m [1; 1; 0]%Q) as (p & Hp & _ & Hz).
  - repeat split.
  - reflexivity.
  - exists p. split; [exact Hp|]. apply Hz.
    intros k Hk. simpl in Hk.
    destruct k as [|[|[|k]]]; try lia; vm_compute; reflexivity.
Defined.

Lemma magnitude_penalty_target_mismatch_witness :
  let m := @GeneVectorModel_init toy_backend 3 2 1 true in
  magnitude_penalty 0 (wi m) (wj m) [1; 1]%Q = Raise RuntimeError.
Proof.
  intros m. apply magnitude_penalty_target_mismatch.
  - repeat split.
  - simpl. lia.
  - simpl. lia.
  - simpl. lia.
Defined.


(** ** The saved parameters and the constructor *)

Lemma set_entries_same (w w' : Tensor) :
  shape0 w' = shape0 w -> shape1 w' = shape1 w ->
  set_entries w' (entry w) = w.
Proof.
  unfold set_entries. destruct w as [s0 s1 e]. cbn. now intros -> ->.
Qed.

Section Saved.
Context `{B : Backend}.

(** X19. What [save] writes is enough to restore the model: it leaves the
    trainer as it is, and the file it writes, read back with [torch.load] and
    loaded with [load_state_dict] into a model whose tables have the same
    shape, gives a model with the saved tables, hence the same scores on
    every pair of index sequences. *)
Theorem saved_parameters_restore_scores (filepath : string) (self : GeneVector)
    (w : World) (fresh : GeneVectorModel) :
  shape0 (wi fresh) = shape0 (wi (model self)) ->
  shape1 (wi fresh) = shape1 (wi (model self)) ->
  shape0 (wj fresh) = shape0 (wj (model self)) ->
  shape1 (wj fresh) = shape1 (wj (model self)) ->
  exists w' sd restored,
    save filepath (self, w) = ((self, w'), Ok tt)
    /\ torch_load filepath w' = (w', Ok sd)
    /\ load_state_dict fresh sd = Ok restored
    /\ wi restored = wi (model self)
    /\ wj restored = wj (model self)
    /\ forall i_indices j_indices,
         forward restored i_indices j_indices
         = forward (model self) i_indices j_indices.
Proof.
  intros H1 H2 H3 H4.
  eexists _, (model_state_dict (model self)), _.
  split; [reflexivity|]. split.
  { unfold torch_load. cbn [files]. now rewrite lookup_insert_eq. }
  split.
  { unfold load_state_dict, model_state_dict. cbn [sd_lookup String.eqb].
    cbn. rewrite H1, H2, H3, H4, !Nat.eqb_refl. reflexivity. }
  cbn [wi wj]. rewrite !set_entries_same by assumption.
  repeat split.
Qed.

(** X20. The constructor raises exactly when the device is "cuda" and no GPU
    is available, and the error is a ValueError; a trainer that is built has
    its parameters on "cuda" when the device is "cuda" and where they were
    created otherwise. *)
Theorem construct_outcome ds out dim bs gain c dev ortho :
  match GeneVector_init ds out dim bs gain c dev ortho with
  | Raise e =>
      dev = "cuda" /\ cuda_is_available = false
      /\ e = ValueError "CUDA requested but no GPU available."
  | Ok self =>
      (dev = "cuda" -> cuda_is_available = true)
      /\ param_device (model self) = (if String.eqb dev "cuda" then "cuda" else "cpu")
      /\ device self = dev
      /\ use_cuda self = cuda_is_available
  end.
Proof.
  unfold GeneVector_init.
  destruct (String.eqb_spec dev "cuda") as [->|Hne];
    destruct cuda_is_available; cbn; repeat split; congruence.
Qed.

(** X21. A trainer that is built always has a batch size: the one given, or,
    when none is given, the number of pairs of the prepared dataset, or one
    million when that number is 0.  It starts at epoch 0 with empty traces
    and an optimizer that has taken no step, over a vocabulary of the size of
    the gene-to-index mapping of the prepared dataset. *)
Theorem construct_fresh_state ds out dim bs gain c dev ortho self :
  GeneVector_init ds out dim bs gain c dev ortho = Ok self ->
  let prepared := create_inputs_outputs c ds in
  batch_size self <> PyNone
  /\ (bs <> PyNone -> batch_size self = bs)
  /\ (bs = PyNone -> num_pairs prepared <> 0 ->
      batch_size self = PyInt (num_pairs prepared))
  /\ (bs = PyNone -> num_pairs prepared = 0 ->
      batch_size self = PyFloat (1000000 # 1))
  /\ dataset self = prepared
  /\ emb_size self = length (gene2id (data prepared))
  /\ epoch self = 0 /\ loss_values self = [] /\ mean_loss_values self = []
  /\ steps (optimizer self) = 0%nat.
Proof.
  unfold GeneVector_init.
  destruct (String.eqb dev "cuda" && negb cuda_is_available); [discriminate|].
  intros [= <-]. cbn.
  destruct bs as [|z|q]; cbn;
    destruct (Z.eqb_spec (num_pairs (create_inputs_outputs c ds)) 0);
    repeat split; congruence.
Qed.

End Saved.

Lemma saved_parameters_restore_scores_witness :
  match toy_trainer "genes.vec" "cpu" false, toy_trainer "other.vec" "cpu" true with
  | Ok self, Ok other =>
      let trained := fst (fst (@train toy_backend 2 PyNone (PyInt 20) 0 0
                                 (self, empty_world))) in
      exists w' sd restored,
        @save toy_backend "model.pt" (trained, empty_world) = ((trained, w'), Ok tt)
        /\ torch_load "model.pt" w' = (w', Ok sd)
        /\ load_state_dict (model other) sd = Ok restored
        /\ forward restored [0; 2] [1; 1] = forward (model trained) [0; 2] [1; 1]
  | _, _ => False
  end.
Proof.
  cbn [toy_trainer]. unfold GeneVector_init.
  cbn -[train save forward load_state_dict torch_load].
  match goal with
  | |- context [save _ (?tr, _)] => set (trained := tr)
  end.
  destruct (@saved_parameters_restore_scores toy_backend "model.pt" trained
              empty_world (@GeneVectorModel_init toy_backend 3 2 1 true))
    as (w' & sd & restored & H1 & H2 & H3 & _ & _ & H4);
    try (vm_compute; reflexivity).
  exists w', sd, restored. repeat split; try assumption. apply H4.
Defined.

Lemma construct_fresh_state_witness :
  match @GeneVector_init toy_backend silent_dataset "genes.vec" 2 PyNone 1 100
          "cpu" false,
        toy_trainer "genes.vec" "cpu" false with
  | Ok silent, Ok self =>
      batch_size silent = PyFloat (1000000 # 1) /\ batch_size self = PyInt 2
  | _, _ => False
  end.
Proof.
  destruct (@GeneVector_init toy_backend silent_dataset "genes.vec" 2 PyNone 1 100
              "cpu" false) as [silent|] eqn:E1; [|discriminate E1].
  destruct (toy_trainer "genes.vec" "cpu" false) as [self|] eqn:E2;
    [|discriminate E2].
  destruct (@construct_fresh_state toy_backend _ _ _ _ _ _ _ _ _ E1)
    as (_ & _ & _ & H1 & _).
  destruct (@construct_fresh_state toy_backend _ _ _ _ _ _ _ _ _ E2)
    as (_ & _ & H2 & _).
  split; [now apply H1 | apply H2; [reflexivity | discriminate]].
Defined.

(** ** How often a run logs *)

Section Logging.
Context `{B : Backend}.

Lemma save_both_stdout (self : GeneVector) (w : World) :
  stdout (snd (fst (save_both (self, w)))) = stdout w.
Proof.
  rewrite save_both_world.
  pose proof (save_embedding_stdout (model self) (id2gene (data (dataset self)))
                (output_file_name self) 0 w) as H1. cbn beta in H1.
  destruct (save_embedding (model self) (id2gene (data (dataset self)))
              (output_file_name self) 0 w) as [w1 [[]|e]];
    cbn [fst snd] in *; [|exact H1].
  rewrite <- H1.
  apply (save_embedding_stdout (model self) (id2gene (data (dataset self))) _ 1 w1).
Qed.

(** The console after an epoch that goes on to the next. *)
Lemma train_epoch_goes_on_stdout th ui alpha beta last k
    (self self1 : GeneVector) (w w1 : World) (r : flow) :
  (forall t, th <> PyFloat t) ->
  py_int ui = Ok k -> k <> 0 ->
  train_epoch th ui alpha beta last (self, w) = ((self1, w1), Ok r) ->
  length (stdout w1)
  = (length (stdout w) + (if (epoch self mod k =? 0)%Z then 1 else 0))%nat.
Proof.
  intros Hth Hk Hnz. unfold train_epoch.
  destruct (run_sweep alpha beta (self, w)) as [[sa wa] [[]|e]] eqn:Hs.
  2:{ rewrite (bind_raise _ _ _ _ _ Hs). discriminate. }
  rewrite (bind_ok _ _ _ _ _ Hs).
  destruct (run_sweep_frame alpha beta self sa w wa _ Hs) as (_ & He & _ & ->).
  unfold finish_epoch.
  rewrite (bind_ok _ _ _ (sa, w) sa) by reflexivity.
  set (curr := numpy_mean (last_n 10 (loss_values sa))).
  rewrite (bind_ok _ _ _ (add_mean sa curr, w) tt) by reflexivity.
  rewrite (bind_ok _ _ _ _ _ (log_epoch_run ui k (add_mean sa curr) w Hk Hnz)).
  unfold stop_or_continue. rewrite converged_not_float by exact Hth.
  erewrite bind_ok by reflexivity.
  intros [= _ <- _]. cbn [epoch add_mean]. rewrite He.
  destruct (epoch self mod k =? 0); cbn [stdout]; [|lia].
  rewrite length_app. cbn. lia.
Qed.

Lemma train_loop_logs n th ui alpha beta last k
    (self self' : GeneVector) (w w' : World) :
  (forall t, th <> PyFloat t) ->
  py_int ui = Ok k -> k <> 0 ->
  train_loop n th ui alpha beta last (self, w) = ((self', w'), Ok tt) ->
  length (stdout w')
  = (length (stdout w) + logged_epochs k (epoch self) n + 1)%nat.
Proof.
  intros Hth Hk Hnz. revert last self w.
  induction n as [|n IH]; intros last self w; cbn [train_loop logged_epochs].
  - rewrite (bind_ok _ _ _
               (self, {| files := files w;
                         stdout := stdout w ++
                           [bcolors.WARNING +:+ "Saving model..." +:+ bcolors.ENDC] |})
               tt) by reflexivity.
    intros H.
    pose proof (save_both_stdout self
                  {| files := files w;
                     stdout := stdout w ++
                       [bcolors.WARNING +:+ "Saving model..." +:+ bcolors.ENDC] |})
      as Hout.
    rewrite H in Hout. cbn [fst snd stdout] in Hout.
    rewrite Hout, length_app. cbn. lia.
  - destruct (train_epoch th ui alpha beta last (self, w))
      as [[s1 w1] [r|e]] eqn:He.
    2:{ rewrite (bind_raise _ _ _ _ _ He). discriminate. }
    rewrite (bind_ok _ _ _ _ _ He).
    pose proof (train_epoch_goes_on_stdout th ui alpha beta last k
                  self s1 w w1 r Hth Hk Hnz He) as Hout.
    destruct (train_epoch_goes_on th ui alpha beta last self s1 w w1 r Hth He)
      as ([curr ->] & H1 & _ & _).
    intros H. rewrite (IH _ _ _ H), Hout, H1. lia.
Qed.

(** X22. A call of [train] without a float threshold that returns has printed
    one diagnostic line for each of its epochs whose cumulative counter is a
    multiple of the interval, and the line that announces the saving: the
    counter goes on from one call to the next. *)
Theorem train_logs_multiples_of_interval (epochs : Z) (th ui : pyval)
    (alpha beta : Q) (k : Z) (self self' : GeneVector) (w w' : World) :
  (forall t, th <> PyFloat t) ->
  py_int ui = Ok k -> k <> 0 ->
  train epochs th ui alpha beta (self, w) = ((self', w'), Ok tt) ->
  length (stdout w')
  = (length (stdout w)
     + logged_epochs k (epoch self) (Z.to_nat epochs) + 1)%nat.
Proof.
  intros Hth Hk Hnz H. eapply train_loop_logs; eassumption.
Qed.

End Logging.

(** X22 on five epochs with interval 2: epochs 0, 2 and 4 are logged. *)
Lemma train_logs_multiples_of_interval_witness :
  match toy_trainer "genes.vec" "cpu" false with
  | Ok self =>
      length (stdout (snd (fst (@train toy_backend 5 PyNone (PyInt 2) 0 0
                                  (self, empty_world))))) = 4%nat
  | Raise _ => False
  end.
Proof.
  cbn [toy_trainer]. unfold GeneVector_init. cbn -[train].
  match goal with
  | |- context [train _ _ _ _ _ (?s, _)] => set (self := s)
  end.
  set (r := @train toy_backend 5 PyNone (PyInt 2) 0 0 (self, empty_world)).
  rewrite (@train_logs_multiples_of_interval toy_backend 5 PyNone (PyInt 2) 0 0 2
             self (fst (fst r)) empty_world (snd (fst r))).
  - reflexivity.
  - discriminate.
  - reflexivity.
  - discriminate.
  - vm_compute. reflexivity.
Defined.

(** ** The epoch at which a run stops *)

Lemma converged_float_settled (t : Q) (curr last : option Q) :
  converged (PyFloat t) curr last = true <-> loss_settled t curr last.
Proof.
  split.
  - destruct curr as [c|], last as [l|]; try discriminate.
    unfold converged, Qltb. intros H. apply negb_true_iff in H.
    exists c, l. repeat split.
    apply Qnot_le_lt. intros Hle. apply Qle_bool_iff in Hle. congruence.
  - intros (c & l & -> & -> & H). now apply converged_float.
Qed.

Lemma converged_float_unsettled (t : Q) (curr last : option Q) :
  ~ loss_settled t curr last -> converged (PyFloat t) curr last = false.
Proof.
  intros H. destruct (converged (PyFloat t) curr last) eqn:E; [|reflexivity].
  destruct H. now apply converged_float_settled.
Qed.

Section StoppingEpoch.
Context `{B : Backend}.

Lemma log_epoch_files (ui : pyval) (self self' : GeneVector) (w w' : World) r :
  log_epoch ui (self, w) = ((self', w'), r) -> files w' = files w.
Proof.
  unfold log_epoch.
  rewrite (bind_ok _ _ _ (self, w) self) by reflexivity.
  unfold bind, lift. destruct (py_int ui) as [n|e]; [|now intros [= _ <- _]].
  destruct (n =? 0); [now intros [= _ <- _]|].
  destruct (epoch self mod n =? 0); now intros [= _ <- _].
Qed.

(** The loop over the epochs goes through epochs whose loss is not
    settled, handing the mean of each on to the next. *)
Lemma train_loop_through_unsettled t ui alpha beta last st n last' st' :
  unsettled_epochs t ui alpha beta last st n last' st' ->
  forall m,
    train_loop (n + m) (PyFloat t) ui alpha beta last st
    = train_loop m (PyFloat t) ui alpha beta last' st'.
Proof.
  induction 1 as [last st|last st self1 w1 self2 w2 n last' st' Hs Hl Hn _ IH];
    intros m; [reflexivity|].
  cbn [Nat.add train_loop]. unfold train_epoch.
  rewrite !bind_bind, (bind_ok _ _ _ _ _ Hs).
  unfold finish_epoch.
  rewrite !bind_bind, (bind_ok _ _ _ (self1, w1) self1) by reflexivity.
  rewrite !bind_bind.
  rewrite (bind_ok _ _ _
             (add_mean self1 (numpy_mean (last_n 10 (loss_values self1))), w1) tt)
    by reflexivity.
  rewrite !bind_bind, (bind_ok _ _ _ _ _ Hl).
  unfold stop_or_continue. rewrite converged_float_unsettled by exact Hn.
  rewrite !bind_bind.
  rewrite (bind_ok _ _ _ (bump_epoch self2, w2) tt) by reflexivity.
  rewrite (bind_ok _ _ _ (bump_epoch self2, w2)
             (Next (numpy_mean (last_n 10 (loss_values self1))))) by reflexivity.
  apply IH.
Qed.

(** What epochs that are not settled change: one sweep, one recorded mean and
    one count each, and no file. *)
Lemma unsettled_epochs_counts t ui alpha beta last st n last' st' :
  unsettled_epochs t ui alpha beta last st n last' st' ->
  sweeps (dataset (fst st')) = (sweeps (dataset (fst st)) + n)%nat
  /\ epoch (fst st') = epoch (fst st) + Z.of_nat n
  /\ length (mean_loss_values (fst st'))
     = (length (mean_loss_values (fst st)) + n)%nat
  /\ files (snd st') = files (snd st).
Proof.
  induction 1 as [last st|last [s w0] self1 w1 self2 w2 n last' st' Hs Hl Hn _ IH].
  - repeat split; lia.
  - destruct (run_sweep_frame alpha beta s self1 w0 w1 _ Hs) as (Hd & He & _ & ->).
    pose proof (run_sweep_mean alpha beta s self1 w0 w0 _ Hs) as Hm.
    pose proof (log_epoch_files _ _ _ _ _ _ Hl) as Hf.
    apply log_epoch_self in Hl. subst self2.
    destruct IH as (I1 & I2 & I3 & I4). cbn [fst snd] in *.
    rewrite I1, I2, I3, I4. cbn. rewrite Hd, He, Hm, length_app. cbn.
    repeat split; lia || assumption.
Qed.

(** C2, for a threshold that is a float.  Let a call of [train] for [epochs]
    epochs run [j] epochs whose loss is not settled: each compares the mean
    of its last ten loss values with the mean of the epoch before it, the
    first with 0.0.  If the next epoch, one of the [epochs] asked for, sweeps
    its batches, and its mean is within the threshold of the mean of epoch
    [j] (of 0.0 when [j] is 0), then [train] stops at that epoch: the mean is
    recorded, the input-role table is exported to the output path and the
    output-role table to the derived path, and [train] returns.  The [n]
    epochs left are not run: [j + 1] sweeps have been requested, [j + 1]
    means recorded, the epoch counter has advanced by [j], and the optimizer
    and the tables are as the last sweep left them. *)
Theorem train_stops_at_settled_epoch (j n : nat) (epochs : Z) (t : Q)
    (ui : pyval) (alpha beta : Q) (self self_j self1 : GeneVector)
    (w w_j w1 : World) (last : option Q) (k : Z) :
  Z.to_nat epochs = (j + S n)%nat ->
  unsettled_epochs t ui alpha beta (Some 0%Q) (self, w) j last (self_j, w_j) ->
  run_sweep alpha beta (self_j, w_j) = ((self1, w1), Ok tt) ->
  py_int ui = Ok k -> k <> 0 ->
  loss_settled t (numpy_mean (last_n 10 (loss_values self1))) last ->
  exportable self1 ->
  let self2 := add_mean self1 (numpy_mean (last_n 10 (loss_values self1))) in
  let m := model self1 in
  let ids := id2gene (data (dataset self1)) in
  exists w2,
    train epochs (PyFloat t) ui alpha beta (self, w) = ((self2, w2), Ok tt)
    /\ files w2
       = <[str_replace (output_file_name self1) ".vec" "2.vec"
             := TextFile (export_text m (wj m) ids)]>
           (<[output_file_name self1 := TextFile (export_text m (wi m) ids)]>
              (files w))
    /\ sweeps (dataset self2) = (sweeps (dataset self) + S j)%nat
    /\ length (mean_loss_values self2)
       = (length (mean_loss_values self) + S j)%nat
    /\ epoch self2 = epoch self + Z.of_nat j
    /\ optimizer self2 = optimizer self1
    /\ model self2 = model self1.
Proof.
  intros Hep Hun Hs Hk Hnz (c & l & Hc & -> & Hlt) Hex self2 m ids.
  destruct (unsettled_epochs_counts _ _ _ _ _ _ _ _ _ Hun) as (C1 & C2 & C3 & C4).
  cbn [fst snd] in C1, C2, C3, C4.
  destruct (run_sweep_frame alpha beta self_j self1 w_j w1 _ Hs)
    as (Hd & He & _ & ->).
  pose proof (run_sweep_mean alpha beta self_j self1 w_j w_j _ Hs) as Hm.
  destruct (settled_epoch_ends_train n t ui alpha beta l self_j self1 w_j w_j k c
              Hs Hk Hnz Hc Hlt Hex)
    as (w2 & Hrun & Hfiles & _ & Hopt & Hmod & _).
  exists w2. unfold self2. rewrite Hc. split.
  { unfold train. rewrite Hep.
    rewrite (train_loop_through_unsettled _ _ _ _ _ _ _ _ _ Hun (S n)).
    exact Hrun. }
  split; [now rewrite Hfiles, C4|].
  cbn [dataset mean_loss_values epoch add_mean].
  rewrite Hd, Hm, He, length_app. cbn [sweeps next_sweep length].
  rewrite C1, C2, C3. repeat split; lia.
Qed.

End StoppingEpoch.

(** C2 at the second of five epochs: the mean of the first epoch, 1/2, is
    not within 1/100 of 0.0; the mean of the second is within 1/100 of the
    mean of the first. *)
Lemma train_stops_at_settled_epoch_witness :
  match toy_trainer "genes.vec" "cpu" true with
  | Ok self =>
      exists self2 w2,
        @train toy_backend 5 (PyFloat (1 # 100)) (PyInt 20) 0 0
          (self, empty_world) = ((self2, w2), Ok tt)
        /\ sweeps (dataset self2) = 2%nat
        /\ length (mean_loss_values self2) = 2%nat
        /\ epoch self2 = 1
        /\ steps (optimizer self2) = 2%nat
        /\ is_Some (files w2 !! "genes.vec")
        /\ is_Some (files w2 !! "genes2.vec")
  | Raise _ => False
  end.
Proof.
  destruct (toy_trainer "genes.vec" "cpu" true) as [self|e] eqn:E;
    [|discriminate E].
  revert E. unfold toy_trainer, GeneVector_init. cbn -[train]. intros [= <-].
  match goal with
  | |- context [train _ _ _ _ _ (?s, _)] => set (self := s)
  end.
  set (r1 := @run_sweep toy_backend 0 0 (self, empty_world)).
  set (c1 := numpy_mean (last_n 10 (loss_values (fst (fst r1))))).
  set (l1 := @log_epoch toy_backend (PyInt 20)
               (add_mean (fst (fst r1)) c1, snd (fst r1))).
  set (r2 := @run_sweep toy_backend 0 0
               (bump_epoch (fst (fst l1)), snd (fst l1))).
  destruct (@train_stops_at_settled_epoch toy_backend 1 3 5 (1 # 100) (PyInt 20)
              0 0 self (bump_epoch (fst (fst l1))) (fst (fst r2))
              empty_world (snd (fst l1)) (snd (fst r2)) c1 20)
    as (w2 & Hrun & Hfiles & Hsweeps & Hmeans & Hepoch & Hopt & Hmodel).
  - reflexivity.
  - apply (@unsettled_next toy_backend (1 # 100) (PyInt 20) 0 0 (Some 0%Q)
             (self, empty_world) (fst (fst r1)) (snd (fst r1))
             (fst (fst l1)) (snd (fst l1)) 0 c1
             (bump_epoch (fst (fst l1)), snd (fst l1))).
    + vm_compute. reflexivity.
    + vm_compute. reflexivity.
    + intros H. apply converged_float_settled in H. vm_compute in H.
      discriminate H.
    + apply unsettled_none.
  - vm_compute. reflexivity.
  - reflexivity.
  - discriminate.
  - apply converged_float_settled. vm_compute. reflexivity.
  - split; repeat (constructor; [simpl; lia|]); constructor.
  - eexists _, w2. split; [exact Hrun|].
    split; [exact Hsweeps|]. split; [exact Hmeans|]. split; [exact Hepoch|].
    split; [rewrite Hopt; vm_compute; reflexivity|].
    rewrite Hfiles. split.
    + rewrite lookup_insert_ne by (vm_compute; discriminate).
      rewrite lookup_insert_eq. eauto.
    + rewrite lookup_insert_eq. eauto.
Defined.

(** C2 fails for a threshold that is a number but no float.  With the int
    threshold 1, the mean of the first epoch, 1/2, is within the threshold of
    0.0, and [train] does not stop there: it runs its five epochs. *)
Lemma int_threshold_counterexample :
  match toy_trainer "genes.vec" "cpu" true with
  | Ok self =>
      exists self1 w1,
        @run_sweep toy_backend 0 0 (self, empty_world) = ((self1, w1), Ok tt)
        /\ numpy_mean (last_n 10 (loss_values self1)) = Some (1 # 2)
        /\ (Qabs ((1 # 2) - 0) < 1)%Q
        /\ let r := @train toy_backend 5 (PyInt 1) (PyInt 20) 0 0
                      (self, empty_world) in
           snd r = Ok tt
           /\ sweeps (dataset (fst (fst r))) = 5%nat
           /\ epoch (fst (fst r)) = 5
           /\ steps (optimizer (fst (fst r))) = 5%nat
  | Raise _ => False
  end.
Proof.
  cbn [toy_trainer]. unfold GeneVector_init. cbn -[train run_sweep].
  match goal with
  | |- context [train _ _ _ _ _ (?s, _)] => set (self := s)
  end.
  exists (fst (fst (@run_sweep toy_backend 0 0 (self, empty_world)))),
         (snd (fst (@run_sweep toy_backend 0 0 (self, empty_world)))).
  split; [vm_compute; reflexivity|]. split; [vm_compute; reflexivity|].
  split; [reflexivity|]. vm_compute. repeat split.
Qed.
